(** * Taskify: the task routes of the backend (src/backend/src/routes/tasks.js)

    A shallow embedding of the five Express handlers of the task router,
    of the JavaScript values they pass around and of the two storage
    backends they talk to, followed by the properties the specification
    states about them. *)

From Stdlib Require Import ZArith Bool List String Ascii Lia.
From Stdlib Require Import DecimalString DecimalZ.
From Stdlib Require Import Permutation Sorted.
Import ListNotations.

Local Open Scope string_scope.
Local Open Scope Z_scope.

#[local] Set Warnings "-register-all".

(* ================================================================== *)
(** ** JavaScript values *)
(* ================================================================== *)

(** The values that travel through the handlers: request fields, bound
    query parameters, column values and response bodies.  Numbers are the
    integers (no handler does arithmetic on them); an object is the list
    of its own properties in insertion order. *)
Inductive jsval : Type :=
| JUndefined
| JNull
| JBool (b : bool)
| JNum (n : Z)
| JStr (s : string)
| JArr (items : list jsval)
| JObj (props : list (string * jsval)).

(** ToBoolean: what [if (x)], [!x], [x || y] and [x && y] test. *)
Definition truthy (v : jsval) : bool :=
  match v with
  | JUndefined | JNull => false
  | JBool b => b
  | JNum n => negb (n =? 0)
  | JStr s => negb (s =? EmptyString)%string
  | JArr _ | JObj _ => true
  end.

(** [a || b] *)
Definition js_or (a b : jsval) : jsval := if truthy a then a else b.

(** [v !== undefined] *)
Definition is_defined (v : jsval) : bool :=
  match v with JUndefined => false | _ => true end.

(** Property read [o.k] on an object given as its property list. *)
Fixpoint obj_get (k : string) (o : list (string * jsval)) : jsval :=
  match o with
  | [] => JUndefined
  | (k', v) :: o' => if (k' =? k)%string then v else obj_get k o'
  end.

(** Property write [o.k = v]: an existing property keeps its place. *)
Fixpoint obj_set (k : string) (v : jsval) (o : list (string * jsval))
  : list (string * jsval) :=
  match o with
  | [] => [(k, v)]
  | (k', v') :: o' =>
      if (k' =? k)%string then (k', v) :: o' else (k', v') :: obj_set k v o'
  end.

(** Property read on a value; reading from a non-object gives undefined. *)
Definition js_get (k : string) (v : jsval) : jsval :=
  match v with JObj o => obj_get k o | _ => JUndefined end.

(** Decimal rendering of an integer, Number.prototype.toString. *)
Definition Z_to_string (n : Z) : string := NilZero.string_of_int (Z.to_int n).

(** Decimal reading of a whole string, [None] when it is not a numeral. *)
Definition Z_of_string (s : string) : option Z :=
  option_map Z.of_int (NilZero.int_of_string s).

(** ToString, as applied by [JSON.parse] to an argument that is not a
    string.  Array.prototype.toString joins with commas and renders null
    and undefined items as the empty string. *)
Fixpoint js_toString (v : jsval) : string :=
  match v with
  | JUndefined => "undefined"
  | JNull => "null"
  | JBool true => "true"
  | JBool false => "false"
  | JNum n => Z_to_string n
  | JStr s => s
  | JArr l =>
      String.concat ","
        (map (fun x => match x with
                       | JUndefined | JNull => EmptyString
                       | _ => js_toString x
                       end) l)
  | JObj _ => "[object Object]"
  end.

(* ================================================================== *)
(** ** JSON.stringify and JSON.parse *)
(* ================================================================== *)

Module Json.

Definition dquote : ascii := ascii_of_N 34.
Definition bslash : ascii := ascii_of_N 92.

Definition hex_digit (n : N) : ascii :=
  ascii_of_N (if (n <? 10)%N then 48 + n else 87 + n).

(** A backslash followed by one letter. *)
Definition esc (c : ascii) : string := String bslash (String c EmptyString).

(** One code unit inside a JSON string literal. *)
Definition escape_char (c : ascii) : string :=
  let n := N_of_ascii c in
  if (n =? 34)%N then esc dquote
  else if (n =? 92)%N then esc bslash
  else if (n =? 8)%N then esc "b"
  else if (n =? 9)%N then esc "t"
  else if (n =? 10)%N then esc "n"
  else if (n =? 12)%N then esc "f"
  else if (n =? 13)%N then esc "r"
  else if (n <? 32)%N then
    String bslash (String "u" (String "0" (String "0"
      (String (hex_digit (n / 16))
         (String (hex_digit (n mod 16)) EmptyString)))))
  else String c EmptyString.

Fixpoint escape (s : string) : string :=
  match s with
  | EmptyString => EmptyString
  | String c r => escape_char c ++ escape r
  end.

Definition quote (s : string) : string :=
  String dquote (escape s ++ String dquote EmptyString).

(** The JSON text of a value.  Inside an array undefined is written as
    null; a property whose value is undefined is left out. *)
Fixpoint text (v : jsval) : string :=
  match v with
  | JUndefined | JNull => "null"
  | JBool true => "true"
  | JBool false => "false"
  | JNum n => Z_to_string n
  | JStr s => quote s
  | JArr l => "[" ++ String.concat "," (map text l) ++ "]"
  | JObj o =>
      "{" ++ String.concat ","
               ((fix members (o : list (string * jsval)) : list string :=
                   match o with
                   | [] => []
                   | (k, x) :: o' =>
                       if is_defined x
                       then (quote k ++ ":" ++ text x) :: members o'
                       else members o'
                   end) o) ++ "}"
  end.

(** [JSON.stringify(v)]: a string, or undefined for undefined. *)
Definition stringify (v : jsval) : jsval :=
  match v with
  | JUndefined => JUndefined
  | _ => JStr (text v)
  end.

(** *** The reader *)

Definition is_ws (c : ascii) : bool :=
  let n := N_of_ascii c in
  ((n =? 32) || (n =? 9) || (n =? 10) || (n =? 13))%N.

Fixpoint skip_ws (s : string) : string :=
  match s with
  | String c r => if is_ws c then skip_ws r else s
  | EmptyString => s
  end.

Definition is_digit (c : ascii) : bool :=
  let n := N_of_ascii c in ((48 <=? n) && (n <=? 57))%N.

Definition hex_val (c : ascii) : option N :=
  let n := N_of_ascii c in
  if ((48 <=? n) && (n <=? 57))%N then Some (n - 48)%N
  else if ((97 <=? n) && (n <=? 102))%N then Some (n - 87)%N
  else if ((65 <=? n) && (n <=? 70))%N then Some (n - 55)%N
  else None.

(** The code unit a one-letter escape stands for. *)
Definition unescape (e : ascii) : option ascii :=
  let n := N_of_ascii e in
  if (n =? 34)%N then Some dquote
  else if (n =? 92)%N then Some bslash
  else if (n =? 47)%N then Some "/"%char
  else if (n =? 98)%N then Some (ascii_of_N 8)
  else if (n =? 116)%N then Some (ascii_of_N 9)
  else if (n =? 110)%N then Some (ascii_of_N 10)
  else if (n =? 102)%N then Some (ascii_of_N 12)
  else if (n =? 114)%N then Some (ascii_of_N 13)
  else None.

(** The four hex digits of a [\u] escape; code units are bytes here, so a
    value above 255 is not read. *)
Definition unicode4 (h1 h2 h3 h4 : ascii) : option ascii :=
  match hex_val h1, hex_val h2, hex_val h3, hex_val h4 with
  | Some a, Some b, Some c, Some d =>
      if ((a =? 0) && (b =? 0))%N then Some (ascii_of_N (16 * c + d)) else None
  | _, _, _, _ => None
  end.

(** The characters of a string literal after its opening quote, up to and
    including the closing quote; returns the string read and what
    follows. *)
Fixpoint parse_chars (s : string) : option (string * string) :=
  match s with
  | EmptyString => None
  | String c r =>
      if (c =? dquote)%char then Some (EmptyString, r)
      else if (c =? bslash)%char then
        match r with
        | String e r1 =>
            if (e =? "u")%char then
              match r1 with
              | String h1 (String h2 (String h3 (String h4 r2))) =>
                  match unicode4 h1 h2 h3 h4, parse_chars r2 with
                  | Some x, Some (t, rest) => Some (String x t, rest)
                  | _, _ => None
                  end
              | _ => None
              end
            else
              match unescape e, parse_chars r1 with
              | Some x, Some (t, rest) => Some (String x t, rest)
              | _, _ => None
              end
        | EmptyString => None
        end
      else if (N_of_ascii c <? 32)%N then None
      else
        match parse_chars r with
        | Some (t, rest) => Some (String c t, rest)
        | None => None
        end
  end.

Fixpoint span_digits (s : string) : string * string :=
  match s with
  | String c r =>
      if is_digit c then let (d, rest) := span_digits r in (String c d, rest)
      else (EmptyString, s)
  | EmptyString => (EmptyString, s)
  end.

(** Does [s] go on with a fraction or an exponent? *)
Definition frac_follows (s : string) : bool :=
  match s with
  | String c _ => ((c =? ".") || (c =? "e") || (c =? "E"))%char
  | EmptyString => false
  end.

(** An integer literal: an optional minus sign and digits without a
    superfluous leading zero. *)
Definition parse_number (s : string) : option (Z * string) :=
  let (sign, body) :=
    match s with
    | String c r => if (c =? "-")%char then ("-", r) else (EmptyString, s)
    | EmptyString => (EmptyString, s)
    end in
  let (ds, rest) := span_digits body in
  if frac_follows rest then None
  else
    match Z_of_string (sign ++ ds) with
    | Some n =>
        if ((Z_to_string n =? sign ++ ds) || (sign ++ ds =? "-0"))%string
        then Some (n, rest) else None
    | None => None
    end.

(** Does [s] start with the word [w]?  Returns what follows it. *)
Fixpoint strip_prefix (w s : string) : option string :=
  match w, s with
  | EmptyString, _ => Some s
  | String a w', String b s' =>
      if (a =? b)%char then strip_prefix w' s' else None
  | String _ _, EmptyString => None
  end.

Section Containers.

(** The reader of one value, supplied by [parse_value] below. *)
Variable pv : string -> option (jsval * string).

(** The items of a non-empty array after its opening bracket. *)
Fixpoint parse_elements (n : nat) (s : string)
  : option (list jsval * string) :=
  match n with
  | O => None
  | S n' =>
      match pv s with
      | Some (v, r) =>
          match skip_ws r with
          | String c r' =>
              if (c =? ",")%char then
                match parse_elements n' r' with
                | Some (vs, rest) => Some (v :: vs, rest)
                | None => None
                end
              else if (c =? "]")%char then Some ([v], r')
              else None
          | EmptyString => None
          end
      | None => None
      end
  end.

(** The members of a non-empty object after its opening brace. *)
Fixpoint parse_members (n : nat) (s : string)
  : option (list (string * jsval) * string) :=
  match n with
  | O => None
  | S n' =>
      match skip_ws s with
      | String q r0 =>
          if (q =? dquote)%char then
            match parse_chars r0 with
            | Some (k, r1) =>
                match skip_ws r1 with
                | String c1 r2 =>
                    if (c1 =? ":")%char then
                      match pv r2 with
                      | Some (v, r3) =>
                          match skip_ws r3 with
                          | String c r' =>
                              if (c =? ",")%char then
                                match parse_members n' r' with
                                | Some (ms, rest) => Some ((k, v) :: ms, rest)
                                | None => None
                                end
                              else if (c =? "}")%char then Some ([(k, v)], r')
                              else None
                          | EmptyString => None
                          end
                      | None => None
                      end
                    else None
                | EmptyString => None
                end
            | None => None
            end
          else None
      | EmptyString => None
      end
  end.

End Containers.

(** One value at the head of [s]; [fuel] bounds the nesting depth. *)
Fixpoint parse_value (fuel : nat) (s : string) : option (jsval * string) :=
  match fuel with
  | O => None
  | S f =>
      match skip_ws s with
      | EmptyString => None
      | String c r =>
          if (c =? "[")%char then
            match skip_ws r with
            | String c' r' =>
                if (c' =? "]")%char then Some (JArr [], r')
                else
                  match parse_elements (parse_value f) (String.length r) r with
                  | Some (l, rest) => Some (JArr l, rest)
                  | None => None
                  end
            | EmptyString => None
            end
          else if (c =? "{")%char then
            match skip_ws r with
            | String c' r' =>
                if (c' =? "}")%char then Some (JObj [], r')
                else
                  match parse_members (parse_value f) (String.length r) r with
                  | Some (o, rest) => Some (JObj o, rest)
                  | None => None
                  end
            | EmptyString => None
            end
          else if (c =? dquote)%char then
            match parse_chars r with
            | Some (t, rest) => Some (JStr t, rest)
            | None => None
            end
          else
            match strip_prefix "null" (String c r) with
            | Some rest => Some (JNull, rest)
            | None =>
            match strip_prefix "true" (String c r) with
            | Some rest => Some (JBool true, rest)
            | None =>
            match strip_prefix "false" (String c r) with
            | Some rest => Some (JBool false, rest)
            | None =>
            match parse_number (String c r) with
            | Some (n, rest) => Some (JNum n, rest)
            | None => None
            end end end end
      end
  end.

(** [JSON.parse(s)] for a string [s]: [None] stands for the SyntaxError
    it throws.  No text nests deeper than it is long. *)
Definition parse_text (s : string) : option jsval :=
  match parse_value (S (String.length s)) s with
  | Some (v, rest) =>
      match skip_ws rest with
      | EmptyString => Some v
      | String _ _ => None
      end
  | None => None
  end.

(** [JSON.parse(v)]: the argument is first converted to a string. *)
Definition parse (v : jsval) : option jsval := parse_text (js_toString v).

End Json.

(* ================================================================== *)
(** ** The store behind [db.query] *)
(* ================================================================== *)

(** [dbConfig.type]: the backend chosen at start-up. *)
Inductive db_type : Type := Sqlite | Postgres.

Definition is_sqlite (cfg : db_type) : bool :=
  match cfg with Sqlite => true | Postgres => false end.

(** A JavaScript object as the list of its properties. *)
Definition jsobj : Type := list (string * jsval).

Record project : Type := mkProject {
  p_id : Z;
  p_name : jsval
}.

(** A row of the [tasks] table, one field per column. *)
Record task : Type := mkTask {
  t_id : Z;
  t_project_id : jsval;
  t_title : jsval;
  t_description : jsval;
  t_status : jsval;
  t_priority : jsval;
  t_due_date : jsval;
  t_estimated_hours : jsval;
  t_actual_hours : jsval;
  t_tags : jsval;
  t_created_at : Z;
  t_updated_at : Z
}.

Record store : Type := mkStore {
  projects : list project;
  tasks : list task
}.

(** The columns the list endpoint filters on. *)
Inductive column : Type := ColProjectId | ColStatus | ColPriority.

(** The statements the router sends, named after their SQL text.
    [SelectTasks conds] is the list query with one [col = ?] per entry of
    [conds], joined by AND. *)
Inductive sql : Type :=
| SelectTasks (conditions : list column)
| SelectTaskById
| SelectProjectId
| InsertTask
| SelectTaskId
| UpdateTask
| DeleteTask.

(** The normalised result of a query. *)
Record result : Type := mkResult {
  rows : list jsobj;
  rowCount : Z;
  lastID : jsval
}.

Module Db.

(** Modelled from the spec: how the drivers behind
    ../database/connectionFactory.js bind a parameter (the adapters are
    missing from the sources).  An undefined parameter is sent as NULL;
    every other value is stored as it is (section 4.2: tags pass through
    untouched on the client/server backend, and are text on the embedded
    one because the caller serialises them). *)
Definition bind (v : jsval) : jsval :=
  match v with JUndefined => JNull | _ => v end.

(** Modelled from the spec: SQL [col = ?] as the engines behind the
    missing adapters evaluate it.  NULL equals nothing; a number and a
    numeral denote the same key (the route parameter [:id] always
    arrives as a string). *)
Definition sql_eq (col param : jsval) : bool :=
  match col, param with
  | JNum a, JNum b => a =? b
  | JStr a, JStr b => (a =? b)%string
  | JNum a, JStr s =>
      match Z_of_string s with Some b => a =? b | None => false end
  | JStr s, JNum b => (s =? Z_to_string b)%string
  | _, _ => false
  end.

(** SQL [COALESCE(?, col)]. *)
Definition coalesce (param col : jsval) : jsval :=
  match param with JNull => col | _ => param end.

Definition col_val (c : column) (r : task) : jsval :=
  match c with
  | ColProjectId => t_project_id r
  | ColStatus => t_status r
  | ColPriority => t_priority r
  end.

(** The WHERE clause of the list query: every condition holds. *)
Fixpoint where_all (cs : list column) (ps : list jsval) (r : task) : bool :=
  match cs, ps with
  | c :: cs', p :: ps' => sql_eq (col_val c r) p && where_all cs' ps' r
  | _, _ => true
  end.

(** [ORDER BY t.created_at DESC], by insertion. *)
Fixpoint insert_desc (r : task) (l : list task) : list task :=
  match l with
  | [] => [r]
  | x :: l' =>
      if t_created_at x <? t_created_at r then r :: l
      else x :: insert_desc r l'
  end.

Definition order_by_created_desc (l : list task) : list task :=
  fold_right insert_desc [] l.

(** [t.*] *)
Definition task_obj (r : task) : jsobj :=
  [ ("id", JNum (t_id r));
    ("project_id", t_project_id r);
    ("title", t_title r);
    ("description", t_description r);
    ("status", t_status r);
    ("priority", t_priority r);
    ("due_date", t_due_date r);
    ("estimated_hours", t_estimated_hours r);
    ("actual_hours", t_actual_hours r);
    ("tags", t_tags r);
    ("created_at", JNum (t_created_at r));
    ("updated_at", JNum (t_updated_at r)) ].

(** [p.name as project_name] under the LEFT JOIN: NULL without a
    project. *)
Definition project_name (st : store) (r : task) : jsval :=
  match find (fun p => sql_eq (JNum (p_id p)) (t_project_id r)) (projects st) with
  | Some p => p_name p
  | None => JNull
  end.

Definition joined_obj (st : store) (r : task) : jsobj :=
  (task_obj r ++ [("project_name", project_name st r)])%list.

Definition id_is (p : jsval) (r : task) : bool := sql_eq (JNum (t_id r)) p.

(** Modelled from the spec: the generated primary key of the missing
    schema (section 3), one above every key in the table. *)
Definition next_id (st : store) : Z :=
  1 + fold_right Z.max 0 (map t_id (tasks st)).

Definition inserted (st : store) (now : Z)
    (pid ttl dsc sts pri due est tgs : jsval) : task :=
  {| t_id := next_id st;
     t_project_id := bind pid;
     t_title := bind ttl;
     t_description := bind dsc;
     t_status := bind sts;
     t_priority := bind pri;
     t_due_date := bind due;
     t_estimated_hours := bind est;
     t_actual_hours := JNull;
     t_tags := bind tgs;
     t_created_at := now;
     t_updated_at := now |}.

(** The SET clause of the update statement. *)
Definition updated (now : Z)
    (ttl dsc sts pri due est act tgs : jsval) (r : task) : task :=
  {| t_id := t_id r;
     t_project_id := t_project_id r;
     t_title := coalesce (bind ttl) (t_title r);
     t_description := coalesce (bind dsc) (t_description r);
     t_status := coalesce (bind sts) (t_status r);
     t_priority := coalesce (bind pri) (t_priority r);
     t_due_date := coalesce (bind due) (t_due_date r);
     t_estimated_hours := coalesce (bind est) (t_estimated_hours r);
     t_actual_hours := coalesce (bind act) (t_actual_hours r);
     t_tags := coalesce (bind tgs) (t_tags r);
     t_created_at := t_created_at r;
     t_updated_at := now |}.

Definition rows_only (l : list jsobj) : result :=
  {| rows := l; rowCount := Z.of_nat (List.length l); lastID := JUndefined |}.

(** Modelled from the spec: [db.query(text, params)] at time [now].  The
    adapters are missing from the sources; section 4.2 gives their
    contract: [?] placeholders bound in order, the result normalised to
    rows and rowCount, and the row written by a statement with a
    RETURNING clause handed back in [rows] on both backends.  What each
    statement does is read off its SQL text in routes/tasks.js.  [None]
    stands for an exception of the driver (here: a parameter count that
    does not fit the statement). *)
Definition query (st : store) (now : Z) (q : sql) (params : list jsval)
  : option (result * store) :=
  match q, params with
  | SelectTasks cs, ps =>
      if (List.length cs =? List.length ps)%nat then
        Some (rows_only
                (map (joined_obj st)
                   (order_by_created_desc
                      (filter (where_all cs (map bind ps)) (tasks st)))),
              st)
      else None
  | SelectTaskById, [i] =>
      Some (rows_only (map (joined_obj st) (filter (id_is (bind i)) (tasks st))),
            st)
  | SelectProjectId, [i] =>
      Some (rows_only
              (map (fun p => [("id", JNum (p_id p))])
                 (filter (fun p => sql_eq (JNum (p_id p)) (bind i))
                    (projects st))),
            st)
  | InsertTask, [pid; ttl; dsc; sts; pri; due; est; tgs] =>
      let r := inserted st now pid ttl dsc sts pri due est tgs in
      Some (rows_only [task_obj r],
            {| projects := projects st; tasks := (tasks st ++ [r])%list |})
  | SelectTaskId, [i] =>
      Some (rows_only
              (map (fun r => [("id", JNum (t_id r))])
                 (filter (id_is (bind i)) (tasks st))),
            st)
  | UpdateTask, [ttl; dsc; sts; pri; due; est; act; tgs; i] =>
      let upd r :=
        if id_is (bind i) r then updated now ttl dsc sts pri due est act tgs r
        else r in
      Some (rows_only
              (map (fun r => task_obj (upd r))
                 (filter (id_is (bind i)) (tasks st))),
            {| projects := projects st; tasks := map upd (tasks st) |})
  | DeleteTask, [i] =>
      let gone := filter (id_is (bind i)) (tasks st) in
      Some ({| rows := [];
               rowCount := Z.of_nat (List.length gone);
               lastID := JUndefined |},
            {| projects := projects st;
               tasks := filter (fun r => negb (id_is (bind i) r)) (tasks st) |})
  | _, _ => None
  end.

End Db.

(* ================================================================== *)
(** ** The route handlers *)
(* ================================================================== *)

(** [req.query] of the list endpoint (an absent parameter is
    undefined). *)
Record query_params : Type := mkQuery {
  q_project_id : jsval;
  q_status : jsval;
  q_priority : jsval
}.

(** [req.body] as the handlers destructure it (an absent field is
    undefined). *)
Record body : Type := mkBody {
  project_id : jsval;
  title : jsval;
  description : jsval;
  status : jsval;
  priority : jsval;
  due_date : jsval;
  estimated_hours : jsval;
  actual_hours : jsval;
  tags : jsval
}.

(** What a handler does with a request: it sends a response, or hands an
    exception to [next], where the generic error handler answers. *)
Inductive outcome : Type :=
| Respond (code : Z) (json : jsval)
| Next (error : string).

Definition failure (msg : string) : jsval :=
  JObj [("success", JBool false); ("error", JStr msg)].

Definition success_data (data : jsval) : jsval :=
  JObj [("success", JBool true); ("data", data)].

Definition driver_error : string := "database error".
Definition syntax_error : string := "SyntaxError".

Section Router.

(** [dbConfig.type] *)
Variable cfg : db_type.

(** [if (dbConfig.type === 'sqlite' && task.tags) task.tags =
    JSON.parse(task.tags)]; [None] when the parse throws. *)
Definition parse_tags (t : jsobj) : option jsobj :=
  if is_sqlite cfg && truthy (obj_get "tags" t) then
    match Json.parse (obj_get "tags" t) with
    | Some v => Some (obj_set "tags" v t)
    | None => None
    end
  else Some t.

(** [{...task, tags: dbConfig.type === 'sqlite' && task.tags ?
    JSON.parse(task.tags) : task.tags}] *)
Definition spread_tags (t : jsobj) : option jsobj :=
  if is_sqlite cfg && truthy (obj_get "tags" t) then
    match Json.parse (obj_get "tags" t) with
    | Some v => Some (obj_set "tags" v t)
    | None => None
    end
  else Some (obj_set "tags" (obj_get "tags" t) t).

(** [rows.map(f)] where [f] may throw. *)
Fixpoint map_rows (f : jsobj -> option jsobj) (l : list jsobj)
  : option (list jsobj) :=
  match l with
  | [] => Some []
  | t :: l' =>
      match f t, map_rows f l' with
      | Some t', Some r => Some (t' :: r)
      | _, _ => None
      end
  end.

(** GET /api/tasks *)
Definition get_tasks (now : Z) (q : query_params) (st : store)
  : outcome * store :=
  let conditions :=
    ((if truthy (q_project_id q) then [ColProjectId] else []) ++
     (if truthy (q_status q) then [ColStatus] else []) ++
     (if truthy (q_priority q) then [ColPriority] else []))%list in
  let params :=
    ((if truthy (q_project_id q) then [q_project_id q] else []) ++
     (if truthy (q_status q) then [q_status q] else []) ++
     (if truthy (q_priority q) then [q_priority q] else []))%list in
  match Db.query st now (SelectTasks conditions) params with
  | None => (Next driver_error, st)
  | Some (result, st1) =>
      match map_rows spread_tags (rows result) with
      | None => (Next syntax_error, st1)
      | Some tasks =>
          (Respond 200
             (JObj [("success", JBool true);
                    ("data", JArr (map JObj tasks));
                    ("count", JNum (Z.of_nat (List.length tasks)))]),
           st1)
      end
  end.

(** GET /api/tasks/:id *)
Definition get_task (now : Z) (id : string) (st : store)
  : outcome * store :=
  match Db.query st now SelectTaskById [JStr id] with
  | None => (Next driver_error, st)
  | Some (result, st1) =>
      match rows result with
      | [] => (Respond 404 (failure "Task not found"), st1)
      | task :: _ =>
          match parse_tags task with
          | None => (Next syntax_error, st1)
          | Some task' => (Respond 200 (success_data (JObj task')), st1)
          end
      end
  end.

(** POST /api/tasks *)
Definition post_task (now : Z) (b : body) (st : store)
  : outcome * store :=
  if negb (truthy (project_id b)) || negb (truthy (title b)) then
    (Respond 400 (failure "project_id and title are required"), st)
  else
    match Db.query st now SelectProjectId [project_id b] with
    | None => (Next driver_error, st)
    | Some (projectCheck, st1) =>
        match rows projectCheck with
        | [] => (Respond 400 (failure "Project not found"), st1)
        | _ :: _ =>
            let tagsValue :=
              if is_sqlite cfg
              then (if truthy (tags b) then Json.stringify (tags b) else JNull)
              else tags b in
            match Db.query st1 now InsertTask
                    [ project_id b;
                      title b;
                      js_or (description b) JNull;
                      js_or (status b) (JStr "todo");
                      js_or (priority b) (JStr "medium");
                      js_or (due_date b) JNull;
                      js_or (estimated_hours b) JNull;
                      tagsValue ] with
            | None => (Next driver_error, st1)
            | Some (result, st2) =>
                let task :=
                  match rows result with
                  | r :: _ => r
                  | [] =>
                      [ ("id", lastID result);
                        ("project_id", project_id b);
                        ("title", title b);
                        ("description", description b);
                        ("status", js_or (status b) (JStr "todo"));
                        ("priority", js_or (priority b) (JStr "medium"));
                        ("due_date", due_date b);
                        ("estimated_hours", estimated_hours b);
                        ("tags", tags b) ]
                  end in
                match parse_tags task with
                | None => (Next syntax_error, st2)
                | Some task' =>
                    (Respond 201 (success_data (JObj task')), st2)
                end
            end
        end
    end.

(** PUT /api/tasks/:id *)
Definition put_task (now : Z) (id : string) (b : body) (st : store)
  : outcome * store :=
  match Db.query st now SelectTaskId [JStr id] with
  | None => (Next driver_error, st)
  | Some (taskCheck, st1) =>
      match rows taskCheck with
      | [] => (Respond 404 (failure "Task not found"), st1)
      | _ :: _ =>
          let tagsValue :=
            if is_defined (tags b)
            then (if is_sqlite cfg then Json.stringify (tags b) else tags b)
            else JNull in
          match Db.query st1 now UpdateTask
                  [ js_or (title b) JNull;
                    js_or (description b) JNull;
                    js_or (status b) JNull;
                    js_or (priority b) JNull;
                    js_or (due_date b) JNull;
                    js_or (estimated_hours b) JNull;
                    js_or (actual_hours b) JNull;
                    tagsValue;
                    JStr id ] with
          | None => (Next driver_error, st1)
          | Some (result, st2) =>
              let task :=
                match rows result with
                | r :: _ => r
                | [] =>
                    [ ("id", JStr id);
                      ("title", title b);
                      ("description", description b);
                      ("status", status b);
                      ("priority", priority b);
                      ("due_date", due_date b);
                      ("estimated_hours", estimated_hours b);
                      ("actual_hours", actual_hours b);
                      ("tags", tags b) ]
                end in
              match parse_tags task with
              | None => (Next syntax_error, st2)
              | Some task' => (Respond 200 (success_data (JObj task')), st2)
              end
          end
      end
  end.

(** DELETE /api/tasks/:id *)
Definition delete_task (now : Z) (id : string) (st : store)
  : outcome * store :=
  match Db.query st now DeleteTask [JStr id] with
  | None => (Next driver_error, st)
  | Some (result, st1) =>
      if rowCount result =? 0 then
        (Respond 404 (failure "Task not found"), st1)
      else
        (Respond 200
           (JObj [("success", JBool true);
                  ("message", JStr "Task deleted successfully")]),
         st1)
  end.

(** A request to the task router, and the router itself. *)
Inductive request : Type :=
| GetTasks (q : query_params)
| GetTask (id : string)
| PostTask (b : body)
| PutTask (id : string) (b : body)
| DeleteTaskReq (id : string).

Definition handle (now : Z) (r : request) (st : store) : outcome * store :=
  match r with
  | GetTasks q => get_tasks now q st
  | GetTask id => get_task now id st
  | PostTask b => post_task now b st
  | PutTask id b => put_task now id b st
  | DeleteTaskReq id => delete_task now id st
  end.

(** A sequence of requests, each with the time it is served at; the
    outcomes in order, and the store left behind. *)
Fixpoint serve (rs : list (Z * request)) (st : store)
  : list outcome * store :=
  match rs with
  | [] => ([], st)
  | (now, r) :: rs' =>
      let (o, st1) := handle now r st in
      let (os, st2) := serve rs' st1 in
      (o :: os, st2)
  end.

End Router.

(* ================================================================== *)
(** ** Vocabulary of the properties *)
(* ================================================================== *)

(** *** JSON texts *)

(** How deep a value nests. *)
Fixpoint depth (v : jsval) : nat :=
  match v with
  | JArr l => S (fold_right (fun x d => Nat.max (depth x) d) O l)
  | JObj o => S (fold_right (fun kv d => Nat.max (depth (snd kv)) d) O o)
  | _ => 1%nat
  end.

(** The properties of an object that its JSON text mentions. *)
Definition defined_members (o : list (string * jsval)) : list (string * jsval) :=
  filter (fun kv => is_defined (snd kv)) o.

(** What is left of a value after a trip through its JSON text: undefined
    has become null inside arrays and has gone from objects. *)
Fixpoint norm (v : jsval) : jsval :=
  match v with
  | JUndefined => JNull
  | JArr l => JArr (map norm l)
  | JObj o =>
      JObj ((fix members (o : list (string * jsval)) : list (string * jsval) :=
               match o with
               | [] => []
               | (k, x) :: o' =>
                   if is_defined x then (k, norm x) :: members o' else members o'
               end) o)
  | _ => v
  end.

(** The pieces between the commas of an object's text, and the
    properties they are read back as. *)
Fixpoint member_texts (o : list (string * jsval)) : list string :=
  match o with
  | [] => []
  | (k, x) :: o' =>
      if is_defined x
      then (Json.quote k ++ ":" ++ Json.text x) :: member_texts o'
      else member_texts o'
  end.

Fixpoint members (o : list (string * jsval)) : list (string * jsval) :=
  match o with
  | [] => []
  | (k, x) :: o' => if is_defined x then (k, norm x) :: members o' else members o'
  end.

Definition member_text (kv : string * jsval) : string :=
  Json.quote (fst kv) ++ ":" ++ Json.text (snd kv).

Definition member_norm (kv : string * jsval) : string * jsval :=
  (fst kv, norm (snd kv)).

(** Every character is a decimal digit. *)
Fixpoint all_digits (s : string) : bool :=
  match s with
  | EmptyString => true
  | String c r => Json.is_digit c && all_digits r
  end.

(** What may come after a number: nothing, or a character that is no
    digit and starts no fraction or exponent. *)
Definition ends_number (rest : string) : bool :=
  match rest with
  | EmptyString => true
  | String c _ => negb (Json.is_digit c) && negb (Json.frac_follows rest)
  end.

(** What may come after a value inside a text: nothing, a comma, or a
    closing bracket or brace. *)
Definition follows (rest : string) : bool :=
  match rest with
  | EmptyString => true
  | String c _ => ((c =? ",") || (c =? "]") || (c =? "}"))%char
  end.

(** The first character of a value's text: no white space, and it closes
    nothing. *)
Definition opens_value (c : ascii) : bool :=
  negb (Json.is_ws c) && negb (c =? "]")%char && negb (c =? "}")%char.

(** A digit or a minus sign. *)
Definition starts_number (c : ascii) : bool :=
  Json.is_digit c || (c =? "-")%char.

(** What [Json.parse_value] has to do for [v]: with fuel for its depth,
    read it off the front of a text and leave the rest. *)
Definition reads_back (v : jsval) : Prop :=
  forall (f : nat) (rest : string),
    (depth v <= f)%nat -> follows rest = true ->
    Json.parse_value f (Json.text v ++ rest) = Some (norm v, rest).

(** *** Stores and rows *)

(** Does a project row match the given [project_id]? *)
Definition project_exists (st : store) (pid : jsval) : bool :=
  existsb (fun p => Db.sql_eq (JNum (p_id p)) pid) (projects st).

(** Does a task row match the route parameter [:id]? *)
Definition task_exists (st : store) (id : string) : bool :=
  existsb (Db.id_is (JStr id)) (tasks st).

Definition add_task (st : store) (r : task) : store :=
  {| projects := projects st; tasks := (tasks st ++ [r])%list |}.

(** The row the INSERT of POST /api/tasks writes. *)
Definition created (cfg : db_type) (now : Z) (b : body) (st : store) : task :=
  Db.inserted st now
    (project_id b) (title b)
    (js_or (description b) JNull)
    (js_or (status b) (JStr "todo"))
    (js_or (priority b) (JStr "medium"))
    (js_or (due_date b) JNull)
    (js_or (estimated_hours b) JNull)
    (if is_sqlite cfg
     then (if truthy (tags b) then Json.stringify (tags b) else JNull)
     else tags b).

(** The row the UPDATE of PUT /api/tasks/:id leaves in place of [r]. *)
Definition rewritten (cfg : db_type) (now : Z) (b : body) (r : task) : task :=
  Db.updated now
    (js_or (title b) JNull)
    (js_or (description b) JNull)
    (js_or (status b) JNull)
    (js_or (priority b) JNull)
    (js_or (due_date b) JNull)
    (js_or (estimated_hours b) JNull)
    (js_or (actual_hours b) JNull)
    (if is_defined (tags b)
     then (if is_sqlite cfg then Json.stringify (tags b) else tags b)
     else JNull)
    r.

(** [r] with a new modification time and nothing else changed. *)
Definition touch (now : Z) (r : task) : task :=
  {| t_id := t_id r;
     t_project_id := t_project_id r;
     t_title := t_title r;
     t_description := t_description r;
     t_status := t_status r;
     t_priority := t_priority r;
     t_due_date := t_due_date r;
     t_estimated_hours := t_estimated_hours r;
     t_actual_hours := t_actual_hours r;
     t_tags := t_tags r;
     t_created_at := t_created_at r;
     t_updated_at := now |}.

(** A request field as the update sees it when it is falsy: not there. *)
Definition drop_falsy (v : jsval) : jsval :=
  if truthy v then v else JUndefined.

(** The body with every falsy field other than tags left out. *)
Definition omit_falsy (b : body) : body :=
  {| project_id := project_id b;
     title := drop_falsy (title b);
     description := drop_falsy (description b);
     status := drop_falsy (status b);
     priority := drop_falsy (priority b);
     due_date := drop_falsy (due_date b);
     estimated_hours := drop_falsy (estimated_hours b);
     actual_hours := drop_falsy (actual_hours b);
     tags := tags b |}.

(** The tags of a row as a response shows them. *)
Definition shown_tags (cfg : db_type) (r : task) : jsval :=
  if is_sqlite cfg && truthy (t_tags r) then
    match Json.parse (t_tags r) with Some v => v | None => t_tags r end
  else t_tags r.

(** The tags column of a row can be decoded (nothing to decode on
    Postgres, nor when the column is falsy). *)
Definition tags_readable (cfg : db_type) (r : task) : bool :=
  if is_sqlite cfg && truthy (t_tags r) then
    match Json.parse (t_tags r) with Some _ => true | None => false end
  else true.


(** A row as POST and PUT return it: its columns, the tags decoded. *)
Definition returned (cfg : db_type) (r : task) : jsobj :=
  if is_sqlite cfg && truthy (t_tags r)
  then obj_set "tags" (shown_tags cfg r) (Db.task_obj r)
  else Db.task_obj r.

(** A row as GET /api/tasks/:id shows it: with the project name. *)
Definition fetched (cfg : db_type) (st : store) (r : task) : jsobj :=
  if is_sqlite cfg && truthy (t_tags r)
  then obj_set "tags" (shown_tags cfg r) (Db.joined_obj st r)
  else Db.joined_obj st r.


(** *** The filtered list *)




(** *** The response envelope *)






(** *** The two backends side by side *)

(** A row of the SQLite store as the Postgres store holds it: the tags
    decoded. *)
Definition decoded (r : task) : task :=
  {| t_id := t_id r;
     t_project_id := t_project_id r;
     t_title := t_title r;
     t_description := t_description r;
     t_status := t_status r;
     t_priority := t_priority r;
     t_due_date := t_due_date r;
     t_estimated_hours := t_estimated_hours r;
     t_actual_hours := t_actual_hours r;
     t_tags := shown_tags Sqlite r;
     t_created_at := t_created_at r;
     t_updated_at := t_updated_at r |}.








(** *** Sample data *)

(** A store with one project and no task. *)
Definition sample_store : store := mkStore [mkProject 1 (JStr "Website")] [].

Definition no_fields : body :=
  mkBody JUndefined JUndefined JUndefined JUndefined JUndefined
         JUndefined JUndefined JUndefined JUndefined.

(** A creation with two tags, one of them with a comma in it. *)
Definition sample_body : body :=
  mkBody (JNum 1) (JStr "Write docs") JUndefined JUndefined JUndefined
         JUndefined JUndefined JUndefined (JArr (map JStr ["docs"; "a,b"])).

(** Two stored tasks of project 1, as the SQLite backend holds them. *)
Definition task_one : task :=
  mkTask 1 (JNum 1) (JStr "Write docs") JNull (JStr "done") (JStr "high")
         JNull (JNum 3) JNull (JStr (Json.text (JArr [JStr "docs"]))) 10 10.

Definition task_two : task :=
  mkTask 2 (JNum 1) (JStr "Ship") (JStr "v1") (JStr "todo") (JStr "high")
         JNull JNull JNull JNull 20 20.

Definition busy_store : store :=
  mkStore [mkProject 1 (JStr "Website")] [task_one; task_two].

(** A PUT body whose only field is [tags: null]. *)
Definition null_tags : body :=
  mkBody JUndefined JUndefined JUndefined JUndefined JUndefined
         JUndefined JUndefined JUndefined JNull.

(** Create a task with two tags, then update it with [tags: null]. *)
Definition null_tags_requests : list (Z * request) :=
  [(10, PostTask sample_body); (20, PutTask "1" null_tags)].

(** The tags in the response to the second request of a run. *)
Definition second_tags (cfg : db_type) (rs : list (Z * request)) : jsval :=
  match fst (serve cfg rs sample_store) with
  | [_; Respond _ json] => js_get "tags" (js_get "data" json)
  | _ => JUndefined
  end.

(** *** Further vocabulary *)


(** The query with every falsy parameter left out. *)
Definition drop_falsy_query (q : query_params) : query_params :=
  {| q_project_id := drop_falsy (q_project_id q);
     q_status := drop_falsy (q_status q);
     q_priority := drop_falsy (q_priority q) |}.

(** The first stored row the route parameter [:id] selects. *)
Definition first_match (st : store) (id : string) : option task :=
  find (Db.id_is (JStr id)) (tasks st).


(** The status codes each endpoint sends. *)
Definition codes_of (r : request) : list Z :=
  match r with
  | GetTasks _ => [200]
  | GetTask _ => [200; 404]
  | PostTask _ => [201; 400]
  | PutTask _ _ => [200; 404]
  | DeleteTaskReq _ => [200; 404]
  end.

(** The body of a successful DELETE. *)
Definition deleted_body : jsval :=
  JObj [("success", JBool true); ("message", JStr "Task deleted successfully")].

(** The store without the rows [:id] selects. *)
Definition without (st : store) (id : string) : store :=
  {| projects := projects st;
     tasks := filter (fun r => negb (Db.id_is (JStr id) r)) (tasks st) |}.

(** The store with the rows [:id] selects rewritten by an update. *)
Definition updated_store (cfg : db_type) (now : Z) (id : string) (b : body)
    (st : store) : store :=
  {| projects := projects st;
     tasks := map (fun r => if Db.id_is (JStr id) r then rewritten cfg now b r else r)
                  (tasks st) |}.

(** What a response object shows of task [x] after the update [b] at time
    [now]: a supplied truthy field has its new value, any other field
    the stored one; tags given as a list of strings are that list, tags
    not given are the stored ones; the modification time is [now]. *)
Definition shows_update (cfg : db_type) (now : Z) (b : body) (x : task)
    (o : jsobj) : Prop :=
  obj_get "id" o = JNum (t_id x) /\
  obj_get "project_id" o = t_project_id x /\
  obj_get "title" o = (if truthy (title b) then title b else t_title x) /\
  obj_get "description" o
    = (if truthy (description b) then description b else t_description x) /\
  obj_get "status" o = (if truthy (status b) then status b else t_status x) /\
  obj_get "priority" o
    = (if truthy (priority b) then priority b else t_priority x) /\
  obj_get "due_date" o
    = (if truthy (due_date b) then due_date b else t_due_date x) /\
  obj_get "estimated_hours" o
    = (if truthy (estimated_hours b) then estimated_hours b
       else t_estimated_hours x) /\
  obj_get "actual_hours" o
    = (if truthy (actual_hours b) then actual_hours b else t_actual_hours x) /\
  (forall l, tags b = JArr (map JStr l) -> obj_get "tags" o = JArr (map JStr l)) /\
  (tags b = JUndefined -> obj_get "tags" o = shown_tags cfg x) /\
  obj_get "created_at" o = JNum (t_created_at x) /\
  obj_get "updated_at" o = JNum now.




(* ================================================================== *)
(** ** Decimal numerals and JSON texts read back *)
(* ================================================================== *)

(** A rendered integer is read back as itself. *)
Lemma Z_of_to_string (n : Z) : Z_of_string (Z_to_string n) = Some n.
Proof.
  unfold Z_of_string, Z_to_string.
  rewrite NilZero.isi.
  - simpl. now rewrite DecimalZ.of_to.
  - destruct n; simpl; try discriminate.
    intros H; injection H as H. now apply DecimalPos.Unsigned.to_uint_nonnil in H.
  - destruct n; simpl; try discriminate.
    intros H; injection H as H. now apply DecimalPos.Unsigned.to_uint_nonnil in H.
Qed.

Lemma string_app_assoc (a b c : string) : ((a ++ b) ++ c = a ++ (b ++ c))%string.
Proof. induction a as [|x a IH]; simpl; [reflexivity | now rewrite IH]. Qed.

(** Reading the escape of one code unit gives the code unit back. *)
Lemma parse_escape_char (c : ascii) (t : string) :
  Json.parse_chars (Json.escape_char c ++ t) =
  match Json.parse_chars t with
  | Some (u, rest) => Some (String c u, rest)
  | None => None
  end.
Proof.
  destruct c as [[] [] [] [] [] [] [] []]; reflexivity.
Qed.

(** The body of a string literal, up to its closing quote. *)
Lemma parse_escape (s rest : string) :
  Json.parse_chars (Json.escape s ++ String Json.dquote rest) = Some (s, rest).
Proof.
  induction s as [|c s IH]; simpl.
  - reflexivity.
  - rewrite string_app_assoc, parse_escape_char, IH. reflexivity.
Qed.

Lemma parse_value_string (f : nat) (s rest : string) :
  Json.parse_value (S f) (Json.quote s ++ rest) = Some (JStr s, rest).
Proof.
  unfold Json.quote. cbn -[Json.parse_chars Json.escape].
  rewrite string_app_assoc. cbn -[Json.parse_chars Json.escape].
  now rewrite parse_escape.
Qed.

Lemma string_length_app (a b : string) :
  String.length (a ++ b) = (String.length a + String.length b)%nat.
Proof. induction a as [|x a IH]; simpl; [reflexivity | now rewrite IH]. Qed.

Lemma parse_value_array_step (f : nat) (c : ascii) (r : string) :
  Json.is_ws c = false -> (c =? "]")%char = false ->
  Json.parse_value (S f) (String "[" (String c r)) =
  match Json.parse_elements (Json.parse_value f)
          (String.length (String c r)) (String c r) with
  | Some (l, rest) => Some (JArr l, rest)
  | None => None
  end.
Proof.
  intros Hws Hc.
  change (Json.parse_value (S f) (String "[" (String c r)))
    with (match Json.skip_ws (String c r) with
          | String c' r' =>
              if (c' =? "]")%char then Some (JArr [], r')
              else
                match Json.parse_elements (Json.parse_value f)
                        (String.length (String c r)) (String c r) with
                | Some (l, rest) => Some (JArr l, rest)
                | None => None
                end
          | EmptyString => None
          end).
  change (Json.skip_ws (String c r))
    with (if Json.is_ws c then Json.skip_ws r else String c r).
  rewrite Hws, Hc. reflexivity.
Qed.

Lemma text_obj o : Json.text (JObj o) = "{" ++ String.concat "," (member_texts o) ++ "}".
Proof. reflexivity. Qed.

Lemma norm_obj o : norm (JObj o) = JObj (members o).
Proof. reflexivity. Qed.

(** Induction on values, with the hypothesis for every item of an array
    and every property of an object. *)
Lemma jsval_induction (P : jsval -> Prop) :
  P JUndefined -> P JNull -> (forall b, P (JBool b)) -> (forall n, P (JNum n)) ->
  (forall s, P (JStr s)) ->
  (forall l, Forall P l -> P (JArr l)) ->
  (forall o, Forall (fun kv => P (snd kv)) o -> P (JObj o)) ->
  forall v, P v.
Proof.
  intros HU HN HB HZ HS HA HO.
  fix IH 1. intros [ | | b | n | s | l | o].
  - exact HU. - exact HN. - apply HB. - apply HZ. - apply HS.
  - apply HA. induction l as [|x l IHl]; constructor; [apply IH | exact IHl].
  - apply HO. induction o as [|[k x] o IHo]; constructor; [apply IH | exact IHo].
Qed.

Lemma uint_digits (d : Decimal.uint) : all_digits (NilEmpty.string_of_uint d) = true.
Proof. induction d; simpl; auto. Qed.

Lemma uint_digits_zero (d : Decimal.uint) : all_digits (NilZero.string_of_uint d) = true.
Proof. destruct d; try reflexivity; apply (uint_digits (_ d)). Qed.

Lemma span_digits_app (ds rest : string) :
  all_digits ds = true -> ends_number rest = true ->
  Json.span_digits (ds ++ rest) = (ds, rest).
Proof.
  intros Hd Hr. induction ds as [|c ds IH]; simpl in *.
  - destruct rest as [|c r]; [reflexivity|].
    simpl in Hr. apply andb_true_iff in Hr. destruct Hr as [Hr _].
    apply negb_true_iff in Hr. simpl. now rewrite Hr.
  - apply andb_true_iff in Hd. destruct Hd as [Hc Hd].
    rewrite Hc, (IH Hd). reflexivity.
Qed.

Lemma digit_not_minus (c : ascii) : Json.is_digit c = true -> (c =? "-")%char = false.
Proof. destruct c as [[] [] [] [] [] [] [] []]; intros H; try reflexivity; discriminate H. Qed.

Lemma parse_number_unsigned (ds rest : string) (n : Z) :
  all_digits ds = true -> ds <> EmptyString -> ends_number rest = true ->
  Z_of_string ds = Some n -> Z_to_string n = ds ->
  Json.parse_number (ds ++ rest) = Some (n, rest).
Proof.
  intros Hd Hne Hr Hn Hs. unfold Json.parse_number.
  destruct ds as [|c ds']; [congruence|].
  assert (Hc : Json.is_digit c = true)
    by (simpl in Hd; apply andb_true_iff in Hd; tauto).
  change (String c ds' ++ rest)%string with (String c (ds' ++ rest)).
  cbv beta iota. rewrite (digit_not_minus c Hc).
  change (String c (ds' ++ rest)) with (String c ds' ++ rest)%string.
  rewrite (span_digits_app _ _ Hd Hr).
  assert (Hf : Json.frac_follows rest = false).
  { destruct rest as [|x r]; [reflexivity|]. simpl in Hr.
    apply andb_true_iff in Hr. destruct Hr as [_ Hr]. now apply negb_true_iff in Hr. }
  rewrite Hf. change (EmptyString ++ String c ds')%string with (String c ds').
  rewrite Hn, Hs, String.eqb_refl. reflexivity.
Qed.

Lemma parse_number_signed (ds rest : string) (n : Z) :
  all_digits ds = true -> ends_number rest = true ->
  Z_of_string (String "-" ds) = Some n -> Z_to_string n = String "-" ds ->
  Json.parse_number (String "-" (ds ++ rest)) = Some (n, rest).
Proof.
  intros Hd Hr Hn Hs. unfold Json.parse_number.
  change ("-" =? "-")%char with true. cbv iota.
  rewrite (span_digits_app _ _ Hd Hr).
  assert (Hf : Json.frac_follows rest = false).
  { destruct rest as [|x r]; [reflexivity|]. simpl in Hr.
    apply andb_true_iff in Hr. destruct Hr as [_ Hr]. now apply negb_true_iff in Hr. }
  rewrite Hf. change ("-" ++ ds)%string with (String "-" ds).
  rewrite Hn, Hs, String.eqb_refl. reflexivity.
Qed.

Lemma uint_string_nonempty (d : Decimal.uint) :
  NilZero.string_of_uint d <> EmptyString.
Proof. destruct d; discriminate. Qed.

(** The decimal rendering of an integer is read back as that integer. *)
Lemma parse_number_rendered (n : Z) (rest : string) :
  ends_number rest = true ->
  Json.parse_number (Z_to_string n ++ rest) = Some (n, rest).
Proof.
  intros Hr. pose proof (Z_of_to_string n) as Hn.
  assert (Hs : Z_to_string n = NilZero.string_of_int (Z.to_int n)) by reflexivity.
  destruct (Z.to_int n) as [d | d]; cbn [NilZero.string_of_int] in Hs.
  - rewrite Hs in Hn |- *.
    apply parse_number_unsigned; auto using uint_digits_zero, uint_string_nonempty.
  - rewrite Hs in Hn |- *.
    change (String "-" (NilZero.string_of_uint d) ++ rest)%string
      with (String "-" (NilZero.string_of_uint d ++ rest)).
    apply parse_number_signed; auto using uint_digits_zero.
Qed.

Lemma follows_ends_number (rest : string) : follows rest = true -> ends_number rest = true.
Proof.
  destruct rest as [|c r]; [reflexivity|]. unfold follows, ends_number, Json.frac_follows.
  destruct c as [[] [] [] [] [] [] [] []]; intros H; try reflexivity; discriminate H.
Qed.

Lemma rendered_head (n : Z) :
  exists c r, Z_to_string n = String c r /\ starts_number c = true.
Proof.
  unfold Z_to_string.
  destruct (Z.to_int n) as [d | d]; cbn [NilZero.string_of_int].
  - destruct d; simpl; eexists; eexists; split; reflexivity.
  - eexists; eexists; split; reflexivity.
Qed.

Lemma parse_value_number_head (f : nat) (c : ascii) (r : string) :
  starts_number c = true ->
  Json.parse_value (S f) (String c r) =
  match Json.parse_number (String c r) with
  | Some (n, rest) => Some (JNum n, rest)
  | None => None
  end.
Proof.
  intros H.
  destruct c as [[] [] [] [] [] [] [] []]; try discriminate H;
    cbn -[Json.parse_number]; reflexivity.
Qed.

Lemma starts_number_opens (c : ascii) : starts_number c = true -> opens_value c = true.
Proof. destruct c as [[] [] [] [] [] [] [] []]; intros H; try reflexivity; discriminate H. Qed.

Lemma text_head (v : jsval) :
  exists c r, Json.text v = String c r /\ opens_value c = true.
Proof.
  destruct v as [ | | [] | n | s | l | o]; simpl;
    try (eexists; eexists; split; reflexivity).
  destruct (rendered_head n) as [c [r [E H]]]. rewrite E.
  exists c, r. split; [reflexivity | now apply starts_number_opens].
Qed.

Lemma text_nonempty (v : jsval) : (1 <= String.length (Json.text v))%nat.
Proof. destruct (text_head v) as [c [r [E _]]]. rewrite E. simpl. lia. Qed.

Lemma concat_cons2 (sep x y : string) (l : list string) :
  String.concat sep (x :: y :: l) = (x ++ sep ++ String.concat sep (y :: l))%string.
Proof. reflexivity. Qed.

Lemma parse_elements_texts (f : nat) (rest : string) (l : list jsval) :
  Forall reads_back l ->
  forall (x : jsval) (n : nat),
    reads_back x ->
    Forall (fun y => (depth y <= f)%nat) (x :: l) ->
    (List.length (x :: l) <= n)%nat ->
    Json.parse_elements (Json.parse_value f) n
      (String.concat "," (map Json.text (x :: l)) ++ String "]" rest)
    = Some (map norm (x :: l), rest).
Proof.
  induction 1 as [|y l Hy Hl IH]; intros x n Hx Hd Hn.
  - destruct n as [|n]; [simpl in Hn; lia|].
    cbn [map String.concat Json.parse_elements].
    rewrite (Hx f (String "]" rest)) by (inversion Hd; auto).
    reflexivity.
  - destruct n as [|n]; [simpl in Hn; lia|].
    cbn [map]. rewrite concat_cons2, string_app_assoc.
    cbn [Json.parse_elements].
    change (("," ++ String.concat "," (Json.text y :: map Json.text l)) ++ String "]" rest)%string
      with (String "," (String.concat "," (map Json.text (y :: l)) ++ String "]" rest)).
    rewrite (Hx f) by (inversion Hd; auto).
    cbn [Json.skip_ws]. change (Json.is_ws ",") with false. cbv iota.
    change ("," =? ",")%char with true. cbv iota.
    inversion Hd as [|? ? _ Hd']; subst.
    rewrite (IH y n Hy Hd') by (simpl in *; lia).
    reflexivity.
Qed.

Lemma member_texts_filter (o : list (string * jsval)) :
  member_texts o = map member_text (defined_members o).
Proof.
  induction o as [|[k x] o IH]; [reflexivity|].
  cbn [member_texts defined_members filter snd].
  destruct (is_defined x); cbn [map]; [now rewrite IH | exact IH].
Qed.

Lemma members_filter (o : list (string * jsval)) :
  members o = map member_norm (defined_members o).
Proof.
  induction o as [|[k x] o IH]; [reflexivity|].
  cbn [members defined_members filter snd].
  destruct (is_defined x); cbn [map]; [now rewrite IH | exact IH].
Qed.

Lemma member_text_app (k : string) (v : jsval) (tail : string) :
  (member_text (k, v) ++ tail)%string
  = String Json.dquote
      (Json.escape k ++ String Json.dquote (String ":" (Json.text v ++ tail))).
Proof.
  unfold member_text, Json.quote. cbn [fst snd].
  change (String Json.dquote (Json.escape k ++ String Json.dquote EmptyString)
          ++ ":" ++ Json.text v)%string
    with (String Json.dquote ((Json.escape k ++ String Json.dquote EmptyString)
          ++ String ":" (Json.text v))).
  change (String Json.dquote ?a ++ tail)%string with (String Json.dquote (a ++ tail)).
  rewrite !string_app_assoc. reflexivity.
Qed.

Lemma parse_member_step (f n : nat) (k : string) (v : jsval) (tail : string) :
  Json.parse_members (Json.parse_value f) (S n) (member_text (k, v) ++ tail)
  = match Json.parse_value f (Json.text v ++ tail) with
    | Some (w, r3) =>
        match Json.skip_ws r3 with
        | String c r' =>
            if (c =? ",")%char then
              match Json.parse_members (Json.parse_value f) n r' with
              | Some (ms, rest) => Some ((k, w) :: ms, rest)
              | None => None
              end
            else if (c =? "}")%char then Some ([(k, w)], r')
            else None
        | EmptyString => None
        end
    | None => None
    end.
Proof.
  rewrite member_text_app.
  cbn [Json.parse_members Json.skip_ws].
  change (Json.is_ws Json.dquote) with false. cbv iota.
  change (Json.dquote =? Json.dquote)%char with true. cbv iota.
  rewrite parse_escape.
  cbn [Json.skip_ws]. change (Json.is_ws ":") with false. cbv iota.
  change (":" =? ":")%char with true. cbv iota.
  reflexivity.
Qed.

Lemma parse_members_texts (f : nat) (rest : string) (l : list (string * jsval)) :
  Forall (fun kv => reads_back (snd kv)) l ->
  forall (x : string * jsval) (n : nat),
    reads_back (snd x) ->
    Forall (fun kv => (depth (snd kv) <= f)%nat) (x :: l) ->
    (List.length (x :: l) <= n)%nat ->
    Json.parse_members (Json.parse_value f) n
      (String.concat "," (map member_text (x :: l)) ++ String "}" rest)
    = Some (map member_norm (x :: l), rest).
Proof.
  induction 1 as [|y l Hy Hl IH]; intros [k v] n Hx Hd Hn; cbn [snd] in Hx.
  - destruct n as [|n]; [simpl in Hn; lia|].
    cbn [map String.concat]. rewrite parse_member_step.
    rewrite (Hx f (String "}" rest)) by (inversion Hd; auto).
    cbn [Json.skip_ws]. change (Json.is_ws "}") with false. cbv iota.
    reflexivity.
  - destruct n as [|n]; [simpl in Hn; lia|].
    cbn [map]. rewrite concat_cons2, string_app_assoc.
    rewrite parse_member_step.
    change (("," ++ String.concat "," (member_text y :: map member_text l)) ++ String "}" rest)%string
      with (String "," (String.concat "," (map member_text (y :: l)) ++ String "}" rest)).
    rewrite (Hx f) by (inversion Hd; auto).
    cbn [Json.skip_ws]. change (Json.is_ws ",") with false. cbv iota.
    change ("," =? ",")%char with true. cbv iota.
    inversion Hd as [|? ? _ Hd']; subst.
    rewrite (IH y n Hy Hd') by (simpl in *; lia).
    reflexivity.
Qed.

Lemma parse_value_object_step (f : nat) (c : ascii) (r : string) :
  Json.is_ws c = false -> (c =? "}")%char = false ->
  Json.parse_value (S f) (String "{" (String c r)) =
  match Json.parse_members (Json.parse_value f)
          (String.length (String c r)) (String c r) with
  | Some (o, rest) => Some (JObj o, rest)
  | None => None
  end.
Proof.
  intros Hws Hc.
  change (Json.parse_value (S f) (String "{" (String c r)))
    with (match Json.skip_ws (String c r) with
          | String c' r' =>
              if (c' =? "}")%char then Some (JObj [], r')
              else
                match Json.parse_members (Json.parse_value f)
                        (String.length (String c r)) (String c r) with
                | Some (o, rest) => Some (JObj o, rest)
                | None => None
                end
          | EmptyString => None
          end).
  change (Json.skip_ws (String c r))
    with (if Json.is_ws c then Json.skip_ws r else String c r).
  rewrite Hws, Hc. reflexivity.
Qed.

Lemma opens_value_inv (c : ascii) :
  opens_value c = true ->
  Json.is_ws c = false /\ (c =? "]")%char = false /\ (c =? "}")%char = false.
Proof.
  unfold opens_value. intros H.
  apply andb_true_iff in H. destruct H as [H H3].
  apply andb_true_iff in H. destruct H as [H1 H2].
  now rewrite negb_true_iff in H1, H2, H3.
Qed.

(** A joined list of non-empty pieces is at least as long as it has
    pieces, and starts like its first piece. *)
Lemma concat_length (ss : list string) (t : string) :
  Forall (fun s => (1 <= String.length s)%nat) ss ->
  (List.length ss <= String.length (String.concat "," ss ++ t))%nat.
Proof.
  induction 1 as [|s ss Hs Hss IH]; [simpl; lia|].
  destruct ss as [|s' ss].
  - cbn [String.concat List.length]. rewrite string_length_app. lia.
  - rewrite concat_cons2, string_app_assoc, string_length_app.
    change (("," ++ String.concat "," (s' :: ss)) ++ t)%string
      with (String "," (String.concat "," (s' :: ss) ++ t)).
    change (String.length (String "," ?x)) with (S (String.length x)).
    change (List.length (s :: s' :: ss)) with (S (List.length (s' :: ss))).
    lia.
Qed.

Lemma concat_head (c : ascii) (r : string) (ss : list string) (t : string) :
  exists r', (String.concat "," (String c r :: ss) ++ t)%string = String c r'.
Proof.
  destruct ss as [|s' ss].
  - eexists. reflexivity.
  - rewrite concat_cons2. eexists. reflexivity.
Qed.

Lemma max_depth_bound (f : nat) (l : list jsval) :
  (fold_right (fun x d => Nat.max (depth x) d) O l <= f)%nat ->
  Forall (fun y => (depth y <= f)%nat) l.
Proof.
  induction l as [|x l IH]; cbn [fold_right]; constructor;
    [lia | apply IH; lia].
Qed.

Lemma max_member_depth_bound (f : nat) (o : list (string * jsval)) :
  (fold_right (fun kv d => Nat.max (depth (snd kv)) d) O o <= f)%nat ->
  Forall (fun kv => (depth (snd kv) <= f)%nat) o.
Proof.
  induction o as [|x o IH]; cbn [fold_right]; constructor;
    [lia | apply IH; lia].
Qed.

Lemma Forall_filter_keep {A : Type} (P : A -> Prop) (g : A -> bool) (l : list A) :
  Forall P l -> Forall P (filter g l).
Proof.
  intros H. apply Forall_forall. intros x Hx. apply filter_In in Hx.
  rewrite Forall_forall in H. now apply H.
Qed.

(** Every value is read back from its own text. *)
Lemma text_reads_back (v : jsval) : reads_back v.
Proof.
  induction v as [ | | b | n | s | l IHl | o IHo] using jsval_induction;
    intros f rest Hf Hrest; (destruct f as [|f]; [simpl in Hf; lia|]).
  - reflexivity.
  - reflexivity.
  - destruct b; reflexivity.
  - cbn [Json.text norm].
    destruct (rendered_head n) as [c [r [E Hc]]].
    assert (E' : (Z_to_string n ++ rest)%string = String c (r ++ rest))
      by (rewrite E; reflexivity).
    rewrite E', (parse_value_number_head f c _ Hc), <- E'.
    rewrite (parse_number_rendered n rest (follows_ends_number _ Hrest)).
    reflexivity.
  - apply parse_value_string.
  - cbn [depth] in Hf. apply le_S_n in Hf.
    change (Json.text (JArr l) ++ rest)%string
      with (String "[" ((String.concat "," (map Json.text l) ++ "]") ++ rest)).
    rewrite string_app_assoc. change ("]" ++ rest)%string with (String "]" rest).
    cbn [norm].
    destruct l as [|x l]; [reflexivity|].
    destruct (text_head x) as [c [r [E Hc]]].
    destruct (opens_value_inv c Hc) as [Hws [Hb _]].
    set (body := (String.concat "," (map Json.text (x :: l)) ++ String "]" rest)%string).
    assert (Hh : exists r', body = String c r').
    { unfold body. cbn [map]. rewrite E. apply concat_head. }
    assert (Hlen : (List.length (x :: l) <= String.length body)%nat).
    { unfold body. rewrite <- (length_map Json.text). apply concat_length.
      apply Forall_forall. intros s Hs. apply in_map_iff in Hs.
      destruct Hs as [y [<- _]]. apply text_nonempty. }
    destruct Hh as [r' Hr'].
    rewrite Hr', (parse_value_array_step f c r' Hws Hb), <- Hr'.
    unfold body at 2.
    inversion IHl as [|? ? Hx Hl]; subst.
    rewrite (parse_elements_texts f rest l Hl x _ Hx (max_depth_bound f _ Hf) Hlen).
    reflexivity.
  - cbn [depth] in Hf. apply le_S_n in Hf.
    rewrite text_obj, norm_obj, member_texts_filter, members_filter.
    change ("{" ++ String.concat "," (map member_text (defined_members o)) ++ "}")%string
      with (String "{" (String.concat "," (map member_text (defined_members o)) ++ "}")).
    change (String "{" ?a ++ rest)%string with (String "{" (a ++ rest)).
    rewrite string_app_assoc. change ("}" ++ rest)%string with (String "}" rest).
    assert (Hrb : Forall (fun kv => reads_back (snd kv)) (defined_members o))
      by (apply Forall_filter_keep; exact IHo).
    assert (Hdp : Forall (fun kv => (depth (snd kv) <= f)%nat) (defined_members o))
      by (apply Forall_filter_keep, max_member_depth_bound; exact Hf).
    destruct (defined_members o) as [|[k x] ms]; [reflexivity|].
    set (body := (String.concat "," (map member_text ((k, x) :: ms))
                    ++ String "}" rest)%string).
    assert (Hh : exists r', body = String Json.dquote r').
    { unfold body. cbn [map]. apply concat_head. }
    assert (Hlen : (List.length ((k, x) :: ms) <= String.length body)%nat).
    { unfold body. rewrite <- (length_map member_text). apply concat_length.
      apply Forall_forall. intros s Hs. apply in_map_iff in Hs.
      destruct Hs as [y [<- _]]. unfold member_text, Json.quote. simpl. lia. }
    destruct Hh as [r' Hr'].
    rewrite Hr', (parse_value_object_step f Json.dquote r' eq_refl eq_refl), <- Hr'.
    unfold body at 2.
    inversion Hrb as [|? ? Hx Hl]; subst.
    rewrite (parse_members_texts f rest ms Hl (k, x) _ Hx Hdp Hlen).
    reflexivity.
Qed.

Lemma concat_piece_length (s : string) (ss : list string) :
  In s ss -> (String.length s <= String.length (String.concat "," ss))%nat.
Proof.
  induction ss as [|x ss IH]; [intros []|].
  intros Hin. destruct ss as [|y ss].
  - destruct Hin as [-> | []]. cbn [String.concat]. lia.
  - rewrite concat_cons2, !string_length_app.
    destruct Hin as [-> | Hin]; [lia | specialize (IH Hin); lia].
Qed.

Lemma max_depth_le (f : nat) (l : list jsval) :
  Forall (fun y => (depth y <= f)%nat) l ->
  (fold_right (fun x d => Nat.max (depth x) d) O l <= f)%nat.
Proof. induction 1; cbn [fold_right]; lia. Qed.

Lemma max_member_depth_le (f : nat) (o : list (string * jsval)) :
  Forall (fun kv => (depth (snd kv) <= f)%nat) o ->
  (fold_right (fun kv d => Nat.max (depth (snd kv)) d) O o <= f)%nat.
Proof. induction 1; cbn [fold_right]; lia. Qed.

(** No value nests deeper than its text is long. *)
Lemma depth_le_text (v : jsval) : (depth v <= String.length (Json.text v))%nat.
Proof.
  induction v as [ | | b | n | s | l IHl | o IHo] using jsval_induction;
    try (apply text_nonempty).
  - change (Json.text (JArr l))
      with (String "[" (String.concat "," (map Json.text l) ++ "]")).
    cbn [depth String.length]. rewrite string_length_app. cbn [String.length].
    apply le_n_S. apply max_depth_le.
    rewrite Forall_forall in *. intros x Hx.
    specialize (IHl x Hx).
    pose proof (concat_piece_length (Json.text x) (map Json.text l)
                  (in_map Json.text l x Hx)). lia.
  - rewrite text_obj, member_texts_filter.
    change ("{" ++ ?a)%string with (String "{" a).
    cbn [depth String.length]. rewrite string_length_app. cbn [String.length].
    apply le_n_S. apply max_member_depth_le.
    rewrite Forall_forall in *. intros [k x] Hx. cbn [snd].
    destruct (is_defined x) eqn:Ed.
    + specialize (IHo (k, x) Hx). cbn [snd] in IHo.
      assert (Hin : In (member_text (k, x)) (map member_text (defined_members o))).
      { apply in_map. apply filter_In. split; [exact Hx | exact Ed]. }
      pose proof (concat_piece_length _ _ Hin) as Hc.
      unfold member_text at 1 in Hc. cbn [fst snd] in Hc.
      rewrite !string_length_app in Hc. lia.
    + destruct x; try discriminate Ed. cbn [depth]. lia.
Qed.

Lemma string_app_empty (s : string) : (s ++ EmptyString)%string = s.
Proof. induction s as [|x s IH]; simpl; [reflexivity | now rewrite IH]. Qed.

(** [JSON.parse(JSON.stringify(v))] never throws: it gives [v] back, up
    to what the text cannot say (undefined). *)
Theorem parse_text_of_text (v : jsval) : Json.parse_text (Json.text v) = Some (norm v).
Proof.
  unfold Json.parse_text.
  rewrite <- (string_app_empty (Json.text v)) at 2.
  rewrite (text_reads_back v (S (String.length (Json.text v))) EmptyString).
  - reflexivity.
  - pose proof (depth_le_text v). lia.
  - reflexivity.
Qed.

(* ================================================================== *)
(** ** Facts about the store *)
(* ================================================================== *)

Lemma bind_truthy (v : jsval) : truthy v = true -> Db.bind v = v.
Proof. destruct v; simpl; intros H; try reflexivity; discriminate. Qed.

Lemma filter_none {A : Type} (f : A -> bool) (l : list A) :
  existsb f l = false -> filter f l = [].
Proof.
  induction l as [|x l IH]; simpl; [reflexivity|].
  destruct (f x); simpl; [discriminate | exact IH].
Qed.

Lemma filter_some {A : Type} (f : A -> bool) (l : list A) :
  existsb f l = true -> exists x r, filter f l = x :: r.
Proof.
  induction l as [|x l IH]; simpl; [discriminate|].
  destruct (f x); simpl; [intros _; eauto | exact IH].
Qed.

Lemma filter_negb_none {A : Type} (f : A -> bool) (l : list A) :
  existsb f l = false -> filter (fun x => negb (f x)) l = l.
Proof.
  induction l as [|x l IH]; simpl; [reflexivity|].
  destruct (f x); simpl; [discriminate|].
  intros H. now rewrite IH.
Qed.

Lemma map_unmatched {A : Type} (f : A -> bool) (g : A -> A) (l : list A) :
  existsb f l = false -> map (fun x => if f x then g x else x) l = l.
Proof.
  induction l as [|x l IH]; simpl; [reflexivity|].
  destruct (f x); simpl; [discriminate|].
  intros H. now rewrite IH.
Qed.

Lemma store_eta (st : store) :
  {| projects := projects st; tasks := tasks st |} = st.
Proof. now destruct st. Qed.

(** Every key in the table lies below the next generated key. *)
Lemma next_id_fresh (st : store) (r : task) :
  In r (tasks st) -> t_id r < Db.next_id st.
Proof.
  unfold Db.next_id. induction (tasks st) as [|x l IH]; cbn [In map fold_right]; [tauto|].
  intros [-> | H]; [lia | specialize (IH H); lia].
Qed.

(** The route parameter that spells [n] selects the rows with key [n]. *)
Lemma id_is_numeral (n : Z) (r : task) :
  Db.id_is (JStr (Z_to_string n)) r = (t_id r =? n).
Proof. unfold Db.id_is, Db.sql_eq. now rewrite Z_of_to_string. Qed.

Lemma filter_new_row (st : store) (r : task) :
  t_id r = Db.next_id st ->
  filter (Db.id_is (JStr (Z_to_string (t_id r)))) (tasks st ++ [r]) = [r].
Proof.
  intros Hid. rewrite filter_app. simpl.
  rewrite id_is_numeral, Z.eqb_refl.
  replace (filter _ (tasks st)) with (@nil task); [reflexivity|].
  symmetry. apply filter_none.
  destruct (existsb _ (tasks st)) eqn:E; [|reflexivity].
  apply existsb_exists in E. destruct E as [x [Hin Hx]].
  rewrite id_is_numeral in Hx. apply Z.eqb_eq in Hx.
  apply next_id_fresh in Hin. lia.
Qed.

(* ================================================================== *)
(** ** Decoding the tags column *)
(* ================================================================== *)

(** On SQLite the text a handler stores for defined tags can be decoded,
    and decodes to the tags. *)
Lemma stringify_readable (v : jsval) :
  is_defined v = true ->
  truthy (Json.stringify v) = true /\
  Json.parse (Json.stringify v) = Some (norm v).
Proof.
  intros Hv.
  assert (E : Json.stringify v = JStr (Json.text v))
    by (destruct v; try reflexivity; discriminate Hv).
  rewrite E. split.
  - cbn [truthy]. destruct (text_head v) as [c [r [-> _]]]. reflexivity.
  - apply parse_text_of_text.
Qed.

Lemma parse_tags_returned (cfg : db_type) (r : task) :
  tags_readable cfg r = true ->
  parse_tags cfg (Db.task_obj r) = Some (returned cfg r).
Proof.
  unfold tags_readable, parse_tags, returned, shown_tags.
  change (obj_get "tags" (Db.task_obj r)) with (t_tags r).
  destruct (is_sqlite cfg && truthy (t_tags r)); [|reflexivity].
  destruct (Json.parse (t_tags r)); [reflexivity | discriminate].
Qed.

Lemma parse_tags_fetched (cfg : db_type) (st : store) (r : task) :
  tags_readable cfg r = true ->
  parse_tags cfg (Db.joined_obj st r) = Some (fetched cfg st r).
Proof.
  unfold tags_readable, parse_tags, fetched, shown_tags.
  change (obj_get "tags" (Db.joined_obj st r)) with (t_tags r).
  destruct (is_sqlite cfg && truthy (t_tags r)); [|reflexivity].
  destruct (Json.parse (t_tags r)); [reflexivity | discriminate].
Qed.



(** The row a creation writes can always be decoded. *)
Lemma created_readable (cfg : db_type) (now : Z) (b : body) (st : store) :
  tags_readable cfg (created cfg now b st) = true.
Proof.
  unfold tags_readable, created. cbn [t_tags Db.inserted].
  destruct cfg; cbn [is_sqlite andb]; [|reflexivity].
  destruct (truthy (tags b)) eqn:Et; [|reflexivity].
  assert (Hd : is_defined (tags b) = true)
    by (destruct (tags b); try reflexivity; discriminate Et).
  destruct (stringify_readable _ Hd) as [Ht Hp].
  rewrite (bind_truthy _ Ht), Ht, Hp. reflexivity.
Qed.

(** The row an update writes can be decoded when the old row could. *)
Lemma rewritten_readable (cfg : db_type) (now : Z) (b : body) (r : task) :
  tags_readable cfg r = true -> tags_readable cfg (rewritten cfg now b r) = true.
Proof.
  unfold tags_readable, rewritten, Db.updated. cbn [t_tags].
  destruct cfg; cbn [is_sqlite andb]; [|reflexivity].
  destruct (is_defined (tags b)) eqn:Ed; [|intros H; exact H].
  intros _. destruct (stringify_readable _ Ed) as [Ht Hp].
  rewrite (bind_truthy _ Ht).
  assert (E : Db.coalesce (Json.stringify (tags b)) (t_tags r) = Json.stringify (tags b))
    by (destruct (tags b); try reflexivity; discriminate Ed).
  rewrite E, Ht, Hp. reflexivity.
Qed.

(* ================================================================== *)
(** ** What each handler does *)
(* ================================================================== *)

(** A valid creation writes its row and answers 201 with it; the parse
    of the returned tags cannot throw. *)
Lemma post_task_valid (cfg : db_type) (now : Z) (b : body) (st : store) :
  truthy (project_id b) = true ->
  truthy (title b) = true ->
  project_exists st (project_id b) = true ->
  post_task cfg now b st =
  (Respond 201 (success_data (JObj (returned cfg (created cfg now b st)))),
   add_task st (created cfg now b st)).
Proof.
  intros Hp Ht Hex. unfold post_task. rewrite Hp, Ht.
  cbn [negb orb Db.query rows Db.rows_only].
  rewrite (bind_truthy _ Hp).
  apply filter_some in Hex. destruct Hex as [p [ps Hps]]. rewrite Hps.
  cbn [map]. fold (created cfg now b st).
  cbn [rows].
  rewrite (parse_tags_returned cfg _ (created_readable cfg now b st)).
  reflexivity.
Qed.

Lemma post_task_rejected (cfg : db_type) (now : Z) (b : body) (st : store) :
  project_exists st (project_id b) = false ->
  post_task cfg now b st =
  (Respond 400
     (failure (if truthy (project_id b) && truthy (title b)
               then "Project not found"
               else "project_id and title are required")),
   st).
Proof.
  intros Hex. unfold post_task.
  destruct (truthy (project_id b)) eqn:Hp; [|reflexivity].
  destruct (truthy (title b)) eqn:Ht; [|reflexivity].
  cbn [negb orb andb Db.query rows Db.rows_only].
  rewrite (bind_truthy _ Hp).
  unfold project_exists in Hex. rewrite (filter_none _ _ Hex).
  reflexivity.
Qed.

(** The store after an update, whether or not a row matched. *)
Lemma put_task_store (cfg : db_type) (now : Z) (id : string) (b : body)
    (st : store) :
  snd (put_task cfg now id b st) =
  {| projects := projects st;
     tasks := map (fun r => if Db.id_is (JStr id) r then rewritten cfg now b r else r)
                  (tasks st) |}.
Proof.
  unfold put_task. cbn [Db.query Db.bind rows Db.rows_only].
  destruct (existsb (Db.id_is (JStr id)) (tasks st)) eqn:E.
  - destruct (filter_some _ _ E) as [x [xs Hx]]. rewrite Hx. cbn [map].
    fold (rewritten cfg now b).
    destruct (parse_tags cfg _); reflexivity.
  - rewrite (filter_none _ _ E). cbn [map snd].
    rewrite (map_unmatched _ _ _ E). now rewrite store_eta.
Qed.

Lemma js_or_drop_falsy (v : jsval) : js_or (drop_falsy v) JNull = js_or v JNull.
Proof.
  unfold js_or, drop_falsy.
  destruct (truthy v) eqn:E; [now rewrite E | reflexivity].
Qed.

Lemma coalesce_falsy (v c : jsval) :
  truthy v = false -> Db.coalesce (Db.bind (js_or v JNull)) c = c.
Proof. intros H. unfold js_or. now rewrite H. Qed.

Lemma Forall2_map_r {A : Type} (P : A -> A -> Prop) (g : A -> A) (l : list A) :
  (forall x, P x (g x)) -> Forall2 P l (map g l).
Proof. intros H. induction l; simpl; constructor; auto. Qed.

(** *** Every write keeps the store decodable *)

Lemma get_tasks_store (cfg : db_type) (now : Z) (q : query_params) (st : store) :
  snd (get_tasks cfg now q st) = st.
Proof.
  unfold get_tasks.
  destruct (Db.query _ _ _ _) as [[res st1]|] eqn:E; [|reflexivity].
  unfold Db.query in E.
  destruct (_ =? _)%nat; [|discriminate]. injection E as <- <-.
  destruct (map_rows _ _); reflexivity.
Qed.

Lemma get_task_store (cfg : db_type) (now : Z) (id : string) (st : store) :
  snd (get_task cfg now id st) = st.
Proof.
  unfold get_task. cbn [Db.query rows Db.rows_only].
  destruct (map _ _); [reflexivity|].
  destruct (parse_tags _ _); reflexivity.
Qed.

Lemma post_task_store (cfg : db_type) (now : Z) (b : body) (st : store) :
  snd (post_task cfg now b st) = st \/
  snd (post_task cfg now b st) = add_task st (created cfg now b st).
Proof.
  destruct (project_exists st (project_id b)) eqn:Hex.
  - destruct (truthy (project_id b)) eqn:Hp;
      [destruct (truthy (title b)) eqn:Ht|].
    + right. now rewrite post_task_valid.
    + left. unfold post_task. rewrite Hp, Ht. reflexivity.
    + left. unfold post_task. rewrite Hp. reflexivity.
  - left. now rewrite post_task_rejected.
Qed.

Lemma delete_task_store (now : Z) (id : string) (st : store) :
  snd (delete_task now id st) =
  {| projects := projects st;
     tasks := filter (fun r => negb (Db.id_is (JStr id) r)) (tasks st) |}.
Proof.
  unfold delete_task. cbn [Db.query Db.bind rowCount].
  destruct (_ =? 0); reflexivity.
Qed.




(* ================================================================== *)
(** ** Selecting and ordering *)
(* ================================================================== *)








(* ================================================================== *)
(** ** A decodable store is always answered *)
(* ================================================================== *)


Lemma get_task_found (cfg : db_type) (now : Z) (id : string)
    (st : store) (x : task) (xs : list task) :
  filter (Db.id_is (JStr id)) (tasks st) = x :: xs ->
  tags_readable cfg x = true ->
  get_task cfg now id st
  = (Respond 200 (success_data (JObj (fetched cfg st x))), st).
Proof.
  intros Hx Hr. unfold get_task. cbn [Db.query Db.bind rows Db.rows_only].
  rewrite Hx. cbn [map].
  rewrite (parse_tags_fetched cfg st x Hr). reflexivity.
Qed.




(* ================================================================== *)
(** ** What a response shows of a row *)
(* ================================================================== *)

Lemma returned_tags (cfg : db_type) (r : task) :
  obj_get "tags" (returned cfg r) = shown_tags cfg r.
Proof.
  unfold returned, shown_tags.
  destruct (is_sqlite cfg && truthy (t_tags r)); reflexivity.
Qed.

Lemma fetched_tags (cfg : db_type) (st : store) (r : task) :
  obj_get "tags" (fetched cfg st r) = shown_tags cfg r.
Proof.
  unfold fetched, shown_tags.
  destruct (is_sqlite cfg && truthy (t_tags r)); reflexivity.
Qed.

Lemma returned_columns (cfg : db_type) (r : task) :
  obj_get "id" (returned cfg r) = JNum (t_id r) /\
  obj_get "status" (returned cfg r) = t_status r /\
  obj_get "priority" (returned cfg r) = t_priority r.
Proof.
  unfold returned.
  destruct (is_sqlite cfg && truthy (t_tags r)); repeat split; reflexivity.
Qed.

Lemma fetched_id (cfg : db_type) (st : store) (r : task) :
  obj_get "id" (fetched cfg st r) = JNum (t_id r).
Proof.
  unfold fetched.
  destruct (is_sqlite cfg && truthy (t_tags r)); reflexivity.
Qed.

Lemma norm_strings (l : list string) : norm (JArr (map JStr l)) = JArr (map JStr l).
Proof.
  cbn [norm]. f_equal. induction l as [|s l IH]; [reflexivity|].
  cbn [map norm]. now rewrite IH.
Qed.

(** The tags a response shows for a row just created with truthy tags:
    the submitted value on Postgres, its trip through JSON on SQLite. *)
Lemma created_shown_tags (cfg : db_type) (now : Z) (b : body) (st : store) :
  truthy (tags b) = true ->
  shown_tags cfg (created cfg now b st)
  = (if is_sqlite cfg then norm (tags b) else tags b).
Proof.
  intros Et. unfold shown_tags, created. cbn [t_tags Db.inserted].
  assert (Hd : is_defined (tags b) = true)
    by (destruct (tags b); try reflexivity; discriminate Et).
  destruct cfg; cbn [is_sqlite andb].
  - rewrite Et. destruct (stringify_readable _ Hd) as [Ht Hp].
    rewrite (bind_truthy _ Ht), Ht, Hp. reflexivity.
  - now apply bind_truthy.
Qed.

(* ================================================================== *)
(** ** The two backends side by side *)
(* ================================================================== *)













Lemma decoded_readable (r : task) : tags_readable Postgres (decoded r) = true.
Proof. reflexivity. Qed.




Lemma returned_postgres (r : task) : returned Postgres r = Db.task_obj r.
Proof. reflexivity. Qed.





(* ================================================================== *)
(** ** Properties of the specification *)
(* ================================================================== *)

(** C1.  A valid creation (truthy project_id matching a project, truthy
    title) whose tags are a list of strings answers 201 with those tags,
    and reading the created task back with GET /api/tasks/:id, under the
    id the creation returned, answers 200 with the same list of strings
    in the same order; this holds on the SQLite backend, where the tags
    are stored as JSON text, and on the Postgres backend, where they are
    stored as they are. *)
Theorem tags_round_trip (cfg : db_type) (now later : Z) (b : body)
    (st : store) (l : list string) :
  truthy (project_id b) = true ->
  truthy (title b) = true ->
  project_exists st (project_id b) = true ->
  tags b = JArr (map JStr l) ->
  exists (newid : Z) (t t' : jsobj) (st' : store),
    post_task cfg now b st = (Respond 201 (success_data (JObj t)), st') /\
    obj_get "id" t = JNum newid /\
    obj_get "tags" t = JArr (map JStr l) /\
    get_task cfg later (Z_to_string newid) st'
      = (Respond 200 (success_data (JObj t')), st') /\
    obj_get "id" t' = JNum newid /\
    obj_get "tags" t' = JArr (map JStr l).
Proof.
  intros Hp Ht Hex Htags.
  set (r := created cfg now b st).
  assert (Hshown : shown_tags cfg r = JArr (map JStr l)).
  { unfold r. rewrite created_shown_tags by (rewrite Htags; reflexivity).
    rewrite Htags, norm_strings. now destruct cfg. }
  exists (t_id r), (returned cfg r), (fetched cfg (add_task st r) r), (add_task st r).
  split; [now apply post_task_valid|].
  split; [apply returned_columns|].
  split; [now rewrite returned_tags|].
  split; [|split; [apply fetched_id | now rewrite fetched_tags]].
  apply (get_task_found cfg later _ (add_task st r) r []).
  - apply (filter_new_row st r). reflexivity.
  - apply created_readable.
Qed.

Lemma tags_round_trip_witness :
  exists (newid : Z) (t t' : jsobj) (st' : store),
    post_task Sqlite 10 sample_body sample_store
      = (Respond 201 (success_data (JObj t)), st') /\
    obj_get "id" t = JNum newid /\
    obj_get "tags" t = JArr (map JStr ["docs"; "a,b"]) /\
    get_task Sqlite 11 (Z_to_string newid) st'
      = (Respond 200 (success_data (JObj t')), st') /\
    obj_get "id" t' = JNum newid /\
    obj_get "tags" t' = JArr (map JStr ["docs"; "a,b"]).
Proof.
  apply (tags_round_trip Sqlite 10 11 sample_body sample_store ["docs"; "a,b"]);
    reflexivity.
Defined.

(** C2.  The same two requests, a creation with tags ['docs', 'a,b'] and
    an update with tags null, are answered differently by the two
    backends: on SQLite the update stores the text 'null' and shows tags
    null, on Postgres COALESCE keeps the stored tags and shows them.
    (Requests with portable tags are answered alike, see
    [portable_requests_agree].) *)
Theorem backends_differ_on_null_tags :
  second_tags Sqlite null_tags_requests = JNull /\
  second_tags Postgres null_tags_requests = JArr (map JStr ["docs"; "a,b"]) /\
  fst (serve Sqlite null_tags_requests sample_store)
    <> fst (serve Postgres null_tags_requests sample_store).
Proof.
  split; [reflexivity|]. split; [reflexivity|].
  vm_compute. discriminate.
Qed.

(** C3.  For an existing task, a PUT /api/tasks/:id whose body supplies
    none of title, description, status, priority, due_date,
    estimated_hours, actual_hours and tags rewrites the matching row to
    itself with updated_at set to the time of the request: every other
    column, every other row and the projects stay as they were. *)
Theorem empty_update_only_touches (cfg : db_type) (now : Z) (id : string)
    (pid : jsval) (st : store) (r : task) :
  In r (tasks st) ->
  Db.id_is (JStr id) r = true ->
  let st' := snd (put_task cfg now id
                    (mkBody pid JUndefined JUndefined JUndefined JUndefined
                            JUndefined JUndefined JUndefined JUndefined) st) in
  st' = {| projects := projects st;
           tasks := map (fun x => if Db.id_is (JStr id) x then touch now x else x)
                        (tasks st) |} /\
  In (touch now r) (tasks st').
Proof.
  intros Hin Hid st'. subst st'. rewrite put_task_store.
  split; [reflexivity|].
  cbn [tasks]. apply in_map_iff. exists r. rewrite Hid. now split.
Qed.

Lemma empty_update_only_touches_witness :
  let st' := snd (put_task Sqlite 30 "2" no_fields busy_store) in
  st' = {| projects := projects busy_store;
           tasks := map (fun x => if Db.id_is (JStr "2") x then touch 30 x else x)
                        (tasks busy_store) |} /\
  In (touch 30 task_two) (tasks st').
Proof.
  apply (empty_update_only_touches Sqlite 30 "2" JUndefined busy_store task_two).
  - simpl. tauto.
  - reflexivity.
Defined.








(** C7.  A POST /api/tasks in which project_id or title is missing is
    answered 400 with the error 'project_id and title are required', and
    no row is inserted. *)
Theorem required_fields_missing (cfg : db_type) (now : Z) (b : body)
    (st : store) :
  project_id b = JUndefined \/ title b = JUndefined ->
  post_task cfg now b st
  = (Respond 400 (failure "project_id and title are required"), st).
Proof.
  intros [H | H]; unfold post_task; rewrite H; cbn [truthy negb orb].
  - reflexivity.
  - now rewrite orb_true_r.
Qed.

Lemma required_fields_missing_witness :
  post_task Sqlite 10 no_fields sample_store
  = (Respond 400 (failure "project_id and title are required"), sample_store).
Proof.
  exact (required_fields_missing Sqlite 10 no_fields sample_store
           (or_introl eq_refl)).
Defined.

(** C8.  A valid POST /api/tasks (truthy project_id matching a project,
    truthy title) answers 201 and appends exactly one row; when the
    request omits status, the row's status and the status in the response
    are 'todo'; when it omits priority, the row's priority and the
    priority in the response are 'medium'. *)
Theorem creation_defaults (cfg : db_type) (now : Z) (b : body) (st : store) :
  truthy (project_id b) = true ->
  truthy (title b) = true ->
  project_exists st (project_id b) = true ->
  exists (r : task) (t : jsobj),
    post_task cfg now b st
      = (Respond 201 (success_data (JObj t)), add_task st r) /\
    (status b = JUndefined ->
     t_status r = JStr "todo" /\ obj_get "status" t = JStr "todo") /\
    (priority b = JUndefined ->
     t_priority r = JStr "medium" /\ obj_get "priority" t = JStr "medium").
Proof.
  intros Hp Ht Hex.
  exists (created cfg now b st), (returned cfg (created cfg now b st)).
  split; [now apply post_task_valid|].
  destruct (returned_columns cfg (created cfg now b st)) as [_ [Hs Hq]].
  rewrite Hs, Hq. unfold created. cbn [t_status t_priority Db.inserted].
  split; intros ->; split; reflexivity.
Qed.

Lemma creation_defaults_witness :
  exists (r : task) (t : jsobj),
    post_task Postgres 10 sample_body sample_store
      = (Respond 201 (success_data (JObj t)), add_task sample_store r) /\
    (status sample_body = JUndefined ->
     t_status r = JStr "todo" /\ obj_get "status" t = JStr "todo") /\
    (priority sample_body = JUndefined ->
     t_priority r = JStr "medium" /\ obj_get "priority" t = JStr "medium").
Proof.
  apply (creation_defaults Postgres 10 sample_body sample_store); reflexivity.
Defined.




(** C10.  A PUT /api/tasks/:id that supplies title, description, status,
    priority, due_date, estimated_hours or actual_hours with a falsy
    value (the empty string and 0 are falsy) answers and writes exactly
    what it would had the field been omitted, and the stored column
    keeps its value in every row. *)
Theorem falsy_update_is_omission (cfg : db_type) (now : Z) (id : string)
    (b : body) (st : store) :
  put_task cfg now id b st = put_task cfg now id (omit_falsy b) st /\
  Forall2
    (fun r r' =>
       (truthy (title b) = false -> t_title r' = t_title r) /\
       (truthy (description b) = false -> t_description r' = t_description r) /\
       (truthy (status b) = false -> t_status r' = t_status r) /\
       (truthy (priority b) = false -> t_priority r' = t_priority r) /\
       (truthy (due_date b) = false -> t_due_date r' = t_due_date r) /\
       (truthy (estimated_hours b) = false ->
        t_estimated_hours r' = t_estimated_hours r) /\
       (truthy (actual_hours b) = false -> t_actual_hours r' = t_actual_hours r))
    (tasks st) (tasks (snd (put_task cfg now id b st))).
Proof.
  split.
  - unfold put_task. cbn [Db.query Db.bind rows Db.rows_only].
    destruct (filter (Db.id_is (JStr id)) (tasks st)) as [|x xs]; cbn [map].
    + reflexivity.
    + cbn [omit_falsy title description status priority due_date
             estimated_hours actual_hours tags].
      rewrite !js_or_drop_falsy. reflexivity.
  - rewrite put_task_store. cbn [tasks].
    apply Forall2_map_r. intros r.
    destruct (Db.id_is (JStr id) r); [|tauto].
    unfold rewritten, Db.updated.
    cbn [t_title t_description t_status t_priority t_due_date
         t_estimated_hours t_actual_hours].
    repeat split; apply coalesce_falsy.
Qed.

(** A falsy title and zero hours on task 2 change nothing but the
    modification time. *)
Example clearing_title_and_hours_is_ignored :
  tasks (snd (put_task Postgres 30 "2"
                (mkBody JUndefined (JStr EmptyString) (JStr EmptyString)
                        JUndefined JUndefined JUndefined (JNum 0) (JNum 0)
                        JUndefined)
                busy_store))
  = [task_one; touch 30 task_two].
Proof. reflexivity. Qed.

(* ================================================================== *)
(** ** Further properties of the handlers *)
(* ================================================================== *)






Lemma truthy_drop_falsy (v : jsval) : truthy (drop_falsy v) = truthy v.
Proof. unfold drop_falsy. destruct (truthy v) eqn:E; [exact E | reflexivity]. Qed.

Lemma drop_falsy_truthy (v : jsval) : truthy v = true -> drop_falsy v = v.
Proof. unfold drop_falsy. now intros ->. Qed.

(** X2.  A query parameter that is present but falsy (as in [?status=])
    is ignored: the list endpoint answers exactly as if it were absent. *)
Theorem falsy_filter_is_absent (cfg : db_type) (now : Z) (q : query_params)
    (st : store) :
  get_tasks cfg now q st = get_tasks cfg now (drop_falsy_query q) st.
Proof.
  unfold get_tasks, drop_falsy_query. cbn [q_project_id q_status q_priority].
  rewrite !truthy_drop_falsy.
  destruct (truthy (q_project_id q)) eqn:E1;
    destruct (truthy (q_status q)) eqn:E2;
    destruct (truthy (q_priority q)) eqn:E3;
    rewrite ?(drop_falsy_truthy _ E1), ?(drop_falsy_truthy _ E2),
      ?(drop_falsy_truthy _ E3); reflexivity.
Qed.

(** X3.  No task route writes to the projects table, and the two GET
    routes write nothing at all, whatever they answer. *)
Theorem routes_frame (cfg : db_type) (now : Z) (r : request) (st : store) :
  projects (snd (handle cfg now r st)) = projects st /\
  match r with
  | GetTasks _ | GetTask _ => snd (handle cfg now r st) = st
  | _ => True
  end.
Proof.
  destruct r as [q | id | b | id b | id]; cbn [handle].
  - now rewrite get_tasks_store.
  - now rewrite get_task_store.
  - destruct (post_task_store cfg now b st) as [-> | ->]; now split.
  - rewrite put_task_store. now split.
  - rewrite delete_task_store. now split.
Qed.




Lemma find_filter {A : Type} (f : A -> bool) (l : list A) (x : A) :
  find f l = Some x -> exists xs, filter f l = x :: xs.
Proof.
  induction l as [|y l IH]; [discriminate|].
  cbn [find filter]. destruct (f y).
  - intros H; injection H as ->. eauto.
  - exact IH.
Qed.

Lemma find_none_exists {A : Type} (f : A -> bool) (l : list A) :
  find f l = None -> existsb f l = false.
Proof.
  induction l as [|y l IH]; [reflexivity|].
  cbn [find existsb]. destruct (f y); [discriminate | exact IH].
Qed.












(** X9.  The handlers send only the status codes of their endpoint: the
    list 200; GET, PUT and DELETE by id 200 or 404; POST 201 or 400.
    None of them sends a 500 itself. *)
Theorem status_codes (cfg : db_type) (now : Z) (r : request) (st : store)
    (code : Z) (json : jsval) :
  fst (handle cfg now r st) = Respond code json ->
  In code (codes_of r).
Proof.
  intros H.
  destruct r as [q | id | b | id b | id]; cbn [handle codes_of] in *.
  - unfold get_tasks in H.
    destruct (Db.query _ _ _ _) as [[res st1]|]; [|discriminate].
    destruct (map_rows _ _); [|discriminate].
    injection H as <- _. now left.
  - unfold get_task in H.
    destruct (Db.query _ _ _ _) as [[res st1]|]; [|discriminate].
    destruct (rows res).
    + injection H as <- _. right. now left.
    + destruct (parse_tags _ _); [|discriminate].
      injection H as <- _. now left.
  - unfold post_task in H.
    destruct (negb _ || negb _).
    + injection H as <- _. right. now left.
    + destruct (Db.query _ _ SelectProjectId _) as [[res st1]|]; [|discriminate].
      destruct (rows res).
      * injection H as <- _. right. now left.
      * destruct (Db.query _ _ InsertTask _) as [[res2 st2]|]; [|discriminate].
        destruct (parse_tags _ _); [|discriminate].
        injection H as <- _. now left.
  - unfold put_task in H.
    destruct (Db.query _ _ SelectTaskId _) as [[res st1]|]; [|discriminate].
    destruct (rows res).
    + injection H as <- _. right. now left.
    + destruct (Db.query _ _ UpdateTask _) as [[res2 st2]|]; [|discriminate].
      destruct (parse_tags _ _); [|discriminate].
      injection H as <- _. now left.
  - unfold delete_task in H.
    destruct (Db.query _ _ _ _) as [[res st1]|]; [|discriminate].
    destruct (rowCount res =? 0).
    + injection H as <- _. right. now left.
    + injection H as <- _. now left.
Qed.

Lemma status_codes_witness :
  In 201 (codes_of (PostTask sample_body)).
Proof.
  apply (status_codes Postgres 10 (PostTask sample_body) sample_store 201
           (success_data
              (JObj (returned Postgres (created Postgres 10 sample_body sample_store))))).
  reflexivity.
Defined.

Lemma existsb_filter_negb {A : Type} (f : A -> bool) (l : list A) :
  existsb f (filter (fun x => negb (f x)) l) = false.
Proof.
  induction l as [|x l IH]; [reflexivity|].
  cbn [filter]. destruct (f x) eqn:E; cbn [negb existsb]; [exact IH|].
  now rewrite E, IH.
Qed.

(** X10.  DELETE /api/tasks/:id of an existing task answers 200 with the
    message, removes the rows the id selects and keeps every other row
    in place; after it the same id is gone: a second DELETE and a GET
    both answer 404 and change nothing. *)
Theorem delete_removes (cfg : db_type) (now later : Z) (id : string)
    (st : store) :
  task_exists st id = true ->
  delete_task now id st = (Respond 200 deleted_body, without st id) /\
  delete_task later id (without st id)
    = (Respond 404 (failure "Task not found"), without st id) /\
  get_task cfg later id (without st id)
    = (Respond 404 (failure "Task not found"), without st id).
Proof.
  intros Hex.
  assert (Hgone : existsb (Db.id_is (JStr id)) (tasks (without st id)) = false)
    by apply existsb_filter_negb.
  split; [|split].
  - unfold delete_task, without. cbn [Db.query Db.bind rowCount].
    destruct (filter_some _ _ Hex) as [x [xs ->]]. reflexivity.
  - unfold delete_task. cbn [Db.query Db.bind rowCount].
    rewrite (filter_none _ _ Hgone), (filter_negb_none _ _ Hgone).
    cbn [List.length Z.of_nat Z.eqb]. now rewrite store_eta.
  - unfold get_task. cbn [Db.query Db.bind rows Db.rows_only].
    now rewrite (filter_none _ _ Hgone).
Qed.

Lemma delete_removes_witness :
  delete_task 30 "1" busy_store = (Respond 200 deleted_body, without busy_store "1") /\
  delete_task 31 "1" (without busy_store "1")
    = (Respond 404 (failure "Task not found"), without busy_store "1") /\
  get_task Sqlite 31 "1" (without busy_store "1")
    = (Respond 404 (failure "Task not found"), without busy_store "1").
Proof.
  apply (delete_removes Sqlite 30 31 "1" busy_store). reflexivity.
Defined.

Lemma filter_negb_new_row (st : store) (r : task) :
  t_id r = Db.next_id st ->
  filter (fun x => negb (Db.id_is (JStr (Z_to_string (t_id r))) x))
         (tasks st ++ [r])
  = tasks st.
Proof.
  intros Hid. rewrite filter_app. cbn [filter].
  rewrite id_is_numeral, Z.eqb_refl. cbn [negb]. rewrite app_nil_r.
  apply filter_negb_none.
  destruct (existsb _ (tasks st)) eqn:E; [|reflexivity].
  apply existsb_exists in E. destruct E as [x [Hin Hx]].
  rewrite id_is_numeral in Hx. apply Z.eqb_eq in Hx.
  apply next_id_fresh in Hin. lia.
Qed.

(** X11.  Creating a task and then deleting it under the id the creation
    returned leaves the store exactly as it was before: the DELETE
    answers 200 and removes the new row and no other. *)
Theorem create_then_delete (cfg : db_type) (now later : Z) (b : body)
    (st : store) :
  truthy (project_id b) = true ->
  truthy (title b) = true ->
  project_exists st (project_id b) = true ->
  exists (newid : Z) (t : jsobj) (st' : store),
    post_task cfg now b st = (Respond 201 (success_data (JObj t)), st') /\
    obj_get "id" t = JNum newid /\
    delete_task later (Z_to_string newid) st' = (Respond 200 deleted_body, st).
Proof.
  intros Hp Ht Hex.
  set (r := created cfg now b st).
  exists (t_id r), (returned cfg r), (add_task st r).
  split; [now apply post_task_valid|].
  split; [apply returned_columns|].
  unfold delete_task. cbn [Db.query Db.bind rowCount add_task tasks projects].
  rewrite (filter_new_row st r eq_refl), (filter_negb_new_row st r eq_refl).
  cbn [List.length Z.of_nat Z.eqb]. now rewrite store_eta.
Qed.

Lemma create_then_delete_witness :
  exists (newid : Z) (t : jsobj) (st' : store),
    post_task Sqlite 30 sample_body busy_store
      = (Respond 201 (success_data (JObj t)), st') /\
    obj_get "id" t = JNum newid /\
    delete_task 31 (Z_to_string newid) st' = (Respond 200 deleted_body, busy_store).
Proof.
  apply (create_then_delete Sqlite 30 31 sample_body busy_store); reflexivity.
Defined.

Lemma coalesce_js_or (v c : jsval) :
  Db.coalesce (Db.bind (js_or v JNull)) c = (if truthy v then v else c).
Proof.
  unfold js_or. destruct (truthy v) eqn:E; [|reflexivity].
  rewrite (bind_truthy _ E). destruct v; try reflexivity; discriminate E.
Qed.

(** The tags a response shows after an update that supplies tags other
    than null: the supplied value on Postgres, its trip through JSON on
    SQLite. *)
Lemma rewritten_shown_tags (cfg : db_type) (now : Z) (b : body) (r : task) :
  is_defined (tags b) = true -> tags b <> JNull ->
  shown_tags cfg (rewritten cfg now b r)
  = (if is_sqlite cfg then norm (tags b) else tags b) /\
  tags_readable cfg (rewritten cfg now b r) = true.
Proof.
  intros Ed Hn. unfold shown_tags, tags_readable, rewritten, Db.updated.
  cbn [t_tags]. rewrite Ed.
  destruct cfg; cbn [is_sqlite andb].
  - destruct (stringify_readable _ Ed) as [Ht Hp].
    rewrite (bind_truthy _ Ht).
    assert (E1 : Db.coalesce (Json.stringify (tags b)) (t_tags r)
                 = Json.stringify (tags b))
      by (destruct (tags b); try reflexivity; discriminate Ed).
    rewrite E1, Ht, Hp. now split.
  - split; [|reflexivity].
    destruct (tags b); try reflexivity; [discriminate Ed | congruence].
Qed.

Lemma rewritten_keeps_tags (cfg : db_type) (now : Z) (b : body) (r : task) :
  tags b = JUndefined -> t_tags (rewritten cfg now b r) = t_tags r.
Proof. intros H. unfold rewritten, Db.updated. cbn [t_tags]. now rewrite H. Qed.

Lemma find_map_comm {A : Type} (f : A -> bool) (g : A -> A) (l : list A) :
  (forall x, f (g x) = f x) -> find f (map g l) = option_map g (find f l).
Proof.
  intros H. induction l as [|x l IH]; [reflexivity|].
  cbn [map find]. rewrite H. destruct (f x); [reflexivity | exact IH].
Qed.

(** The update as a whole, when the row it returns can be decoded. *)
Lemma put_task_done (cfg : db_type) (now : Z) (id : string) (b : body)
    (st : store) (x : task) :
  first_match st id = Some x ->
  tags_readable cfg (rewritten cfg now b x) = true ->
  put_task cfg now id b st
  = (Respond 200 (success_data (JObj (returned cfg (rewritten cfg now b x)))),
     updated_store cfg now id b st).
Proof.
  intros Hf Hr. destruct (find_filter _ _ _ Hf) as [xs Hxs].
  assert (Hid : Db.id_is (JStr id) x = true) by apply (find_some _ _ Hf).
  unfold put_task. cbn [Db.query Db.bind rows Db.rows_only].
  rewrite Hxs. cbn [map]. rewrite Hid.
  fold (rewritten cfg now b x).
  now rewrite (parse_tags_returned cfg _ Hr).
Qed.

Lemma first_match_updated (cfg : db_type) (now : Z) (id : string) (b : body)
    (st : store) (x : task) :
  first_match st id = Some x ->
  first_match (updated_store cfg now id b st) id = Some (rewritten cfg now b x).
Proof.
  unfold first_match, updated_store. cbn [tasks]. intros Hf.
  rewrite find_map_comm.
  - rewrite Hf. cbn [option_map].
    destruct (find_some _ _ Hf) as [_ Hid]. now rewrite Hid.
  - intros y. destruct (Db.id_is (JStr id) y) eqn:E; exact E.
Qed.

Lemma shows_update_rewritten (cfg : db_type) (now : Z) (b : body) (x : task)
    (o : jsobj) :
  (forall k, ("tags" =? k)%string = false ->
             ("project_name" =? k)%string = false ->
             obj_get k o = obj_get k (Db.task_obj (rewritten cfg now b x))) ->
  obj_get "tags" o = shown_tags cfg (rewritten cfg now b x) ->
  shows_update cfg now b x o.
Proof.
  intros Hk Ht. unfold shows_update.
  rewrite (Hk "id" eq_refl eq_refl), (Hk "project_id" eq_refl eq_refl), (Hk "title" eq_refl eq_refl),
    (Hk "description" eq_refl eq_refl), (Hk "status" eq_refl eq_refl), (Hk "priority" eq_refl eq_refl),
    (Hk "due_date" eq_refl eq_refl), (Hk "estimated_hours" eq_refl eq_refl),
    (Hk "actual_hours" eq_refl eq_refl), (Hk "created_at" eq_refl eq_refl),
    (Hk "updated_at" eq_refl eq_refl), Ht.
  unfold rewritten at 1 2 3 4 5 6 7 8 9 12 13, Db.updated.
  cbn [Db.task_obj obj_get String.eqb Ascii.eqb Bool.eqb
       t_id t_project_id t_title t_description t_status t_priority t_due_date
       t_estimated_hours t_actual_hours t_created_at t_updated_at].
  rewrite !coalesce_js_or.
  repeat (split; [reflexivity|]).
  split; [|split; [|split; reflexivity]].
  - intros l Hl.
    destruct (rewritten_shown_tags cfg now b x) as [Hs _];
      [rewrite Hl; reflexivity | rewrite Hl; discriminate |].
    rewrite Hs, Hl, norm_strings. now destruct cfg.
  - intros Hu. unfold shown_tags. now rewrite (rewritten_keeps_tags cfg now b x Hu).
Qed.

Lemma obj_get_set_other (k k' : string) (v : jsval) (o : jsobj) :
  (k =? k')%string = false ->
  obj_get k' (obj_set k v o) = obj_get k' o.
Proof.
  intros Hk. induction o as [|[k0 v0] o IH]; simpl.
  - now rewrite Hk.
  - destruct (k0 =? k)%string eqn:E0.
    + apply String.eqb_eq in E0. subst k0. simpl. now rewrite Hk.
    + simpl. destruct (k0 =? k')%string; [reflexivity | exact IH].
Qed.

Lemma obj_get_app_other (k k' : string) (v : jsval) (o : jsobj) :
  (k' =? k)%string = false ->
  obj_get k (o ++ [(k', v)]) = obj_get k o.
Proof.
  intros Hk. induction o as [|[k0 v0] o IH]; simpl.
  - now rewrite Hk.
  - destruct (k0 =? k)%string; [reflexivity | exact IH].
Qed.

Lemma returned_other (cfg : db_type) (r : task) (k : string) :
  ("tags" =? k)%string = false ->
  obj_get k (returned cfg r) = obj_get k (Db.task_obj r).
Proof.
  intros Hk. unfold returned.
  destruct (is_sqlite cfg && truthy (t_tags r)); [|reflexivity].
  now apply obj_get_set_other.
Qed.

Lemma fetched_other (cfg : db_type) (st : store) (r : task) (k : string) :
  ("tags" =? k)%string = false -> ("project_name" =? k)%string = false ->
  obj_get k (fetched cfg st r) = obj_get k (Db.task_obj r).
Proof.
  intros Hk Hp. unfold fetched, Db.joined_obj.
  destruct (is_sqlite cfg && truthy (t_tags r)).
  - rewrite obj_get_set_other by exact Hk. now apply obj_get_app_other.
  - now apply obj_get_app_other.
Qed.

(** X12.  A PUT /api/tasks/:id on an existing task (whose stored tags
    can be decoded) answers 200, and a GET of the same id afterwards
    answers 200 too; both show the task with each supplied truthy field
    at its new value and every other field as stored, tags given as a
    list of strings as that list, id, project_id and created_at as they
    were, and updated_at at the time of the update. *)
Theorem update_then_read (cfg : db_type) (now later : Z) (id : string)
    (b : body) (st : store) (x : task) :
  first_match st id = Some x ->
  tags_readable cfg x = true ->
  exists (t t' : jsobj) (st' : store),
    put_task cfg now id b st = (Respond 200 (success_data (JObj t)), st') /\
    get_task cfg later id st' = (Respond 200 (success_data (JObj t')), st') /\
    shows_update cfg now b x t /\
    shows_update cfg now b x t'.
Proof.
  intros Hf Hr.
  pose proof (rewritten_readable cfg now b x Hr) as Hr'.
  pose proof (first_match_updated cfg now id b st x Hf) as Hf'.
  destruct (find_filter _ _ _ Hf') as [xs Hxs].
  exists (returned cfg (rewritten cfg now b x)),
         (fetched cfg (updated_store cfg now id b st) (rewritten cfg now b x)),
         (updated_store cfg now id b st).
  split; [now apply put_task_done|].
  split; [now apply (get_task_found cfg later id _ _ xs)|].
  split.
  - apply shows_update_rewritten.
    + intros k Hk _. now apply returned_other.
    + apply returned_tags.
  - apply shows_update_rewritten.
    + intros k Hk Hp. now apply fetched_other.
    + apply fetched_tags.
Qed.

Lemma update_then_read_witness :
  exists (t t' : jsobj) (st' : store),
    put_task Sqlite 30 "1" sample_body busy_store
      = (Respond 200 (success_data (JObj t)), st') /\
    get_task Sqlite 31 "1" st' = (Respond 200 (success_data (JObj t')), st') /\
    shows_update Sqlite 30 sample_body task_one t /\
    shows_update Sqlite 30 sample_body task_one t'.
Proof.
  apply (update_then_read Sqlite 30 31 "1" sample_body busy_store task_one);
    reflexivity.
Defined.

Lemma coalesce_idem (p c : jsval) :
  Db.coalesce p (Db.coalesce p c) = Db.coalesce p c.
Proof. now destruct p. Qed.

Lemma rewritten_twice (cfg : db_type) (now later : Z) (b : body) (r : task) :
  rewritten cfg later b (rewritten cfg now b r) = rewritten cfg later b r.
Proof.
  unfold rewritten, Db.updated.
  cbn [t_id t_project_id t_title t_description t_status t_priority t_due_date
       t_estimated_hours t_actual_hours t_tags t_created_at t_updated_at].
  now rewrite !coalesce_idem.
Qed.

(** X13.  Sending the same PUT a second time changes nothing but
    updated_at: the store after both updates is the store the second
    one alone would have left. *)
Theorem update_twice (cfg : db_type) (now later : Z) (id : string) (b : body)
    (st : store) :
  snd (put_task cfg later id b (snd (put_task cfg now id b st)))
  = snd (put_task cfg later id b st).
Proof.
  rewrite !put_task_store. cbn [projects tasks]. f_equal.
  rewrite map_map. apply map_ext. intros r.
  destruct (Db.id_is (JStr id) r) eqn:E.
  - change (Db.id_is (JStr id) (rewritten cfg now b r)) with (Db.id_is (JStr id) r).
    rewrite E. apply rewritten_twice.
  - now rewrite E.
Qed.

(** X14.  A PUT never adds or removes a row and never changes a row's
    id, project_id or created_at (a project_id in the body is ignored);
    the projects are left alone. *)
Theorem update_keeps_identity (cfg : db_type) (now : Z) (id : string)
    (b : body) (st : store) :
  projects (snd (put_task cfg now id b st)) = projects st /\
  Forall2
    (fun r r' =>
       t_id r' = t_id r /\
       t_project_id r' = t_project_id r /\
       t_created_at r' = t_created_at r)
    (tasks st) (tasks (snd (put_task cfg now id b st))).
Proof.
  rewrite put_task_store. cbn [projects tasks]. split; [reflexivity|].
  apply Forall2_map_r. intros r.
  destruct (Db.id_is (JStr id) r); repeat split; reflexivity.
Qed.



(** X16.  A valid creation whose tags are falsy (absent, null, the empty
    string, 0, false) stores NULL in the tags column and answers with
    tags null on SQLite, where the handler replaces them by null; on
    Postgres the same holds for absent and null tags. *)
Theorem falsy_tags_on_create (cfg : db_type) (now : Z) (b : body) (st : store) :
  truthy (project_id b) = true ->
  truthy (title b) = true ->
  project_exists st (project_id b) = true ->
  truthy (tags b) = false ->
  (cfg = Postgres -> tags b = JUndefined \/ tags b = JNull) ->
  exists (r : task) (t : jsobj),
    post_task cfg now b st
      = (Respond 201 (success_data (JObj t)), add_task st r) /\
    t_tags r = JNull /\ obj_get "tags" t = JNull.
Proof.
  intros Hp Ht Hex Hf Hpg.
  exists (created cfg now b st), (returned cfg (created cfg now b st)).
  split; [now apply post_task_valid|].
  assert (Hn : t_tags (created cfg now b st) = JNull).
  { unfold created. cbn [t_tags Db.inserted]. destruct cfg; cbn [is_sqlite].
    - now rewrite Hf.
    - destruct (Hpg eq_refl) as [-> | ->]; reflexivity. }
  split; [exact Hn|].
  rewrite returned_tags. unfold shown_tags. rewrite Hn.
  now rewrite andb_false_r.
Qed.

Lemma falsy_tags_on_create_witness :
  exists (r : task) (t : jsobj),
    post_task Sqlite 10
      (mkBody (JNum 1) (JStr "Ship") JUndefined JUndefined JUndefined
              JUndefined JUndefined JUndefined (JStr EmptyString))
      sample_store
      = (Respond 201 (success_data (JObj t)), add_task sample_store r) /\
    t_tags r = JNull /\ obj_get "tags" t = JNull.
Proof.
  apply (falsy_tags_on_create Sqlite 10
           (mkBody (JNum 1) (JStr "Ship") JUndefined JUndefined JUndefined
                   JUndefined JUndefined JUndefined (JStr EmptyString))
           sample_store); try reflexivity.
  intros H. discriminate H.
Defined.

(** X17.  A PUT with tags null on an existing task differs by backend,
    whatever the task: SQLite stores the text 'null' in the tags column
    and answers with tags null; Postgres leaves the column alone and
    answers with the stored tags. *)
Theorem null_tags_on_update (now : Z) (id : string) (b : body) (st : store)
    (x : task) :
  first_match st id = Some x ->
  tags b = JNull ->
  (exists t : jsobj,
      put_task Sqlite now id b st
        = (Respond 200 (success_data (JObj t)),
           updated_store Sqlite now id b st) /\
      t_tags (rewritten Sqlite now b x) = JStr "null" /\
      obj_get "tags" t = JNull) /\
  (exists t : jsobj,
      put_task Postgres now id b st
        = (Respond 200 (success_data (JObj t)),
           updated_store Postgres now id b st) /\
      t_tags (rewritten Postgres now b x) = t_tags x /\
      obj_get "tags" t = t_tags x).
Proof.
  intros Hf Hn.
  assert (Hs : t_tags (rewritten Sqlite now b x) = JStr "null")
    by (unfold rewritten, Db.updated; cbn [t_tags]; now rewrite Hn).
  assert (Hp : t_tags (rewritten Postgres now b x) = t_tags x)
    by (unfold rewritten, Db.updated; cbn [t_tags]; now rewrite Hn).
  split.
  - exists (returned Sqlite (rewritten Sqlite now b x)).
    split; [|split; [exact Hs|]].
    + apply put_task_done; [exact Hf|]. unfold tags_readable. now rewrite Hs.
    + rewrite returned_tags. unfold shown_tags. now rewrite Hs.
  - exists (returned Postgres (rewritten Postgres now b x)).
    split; [|split; [exact Hp|]].
    + apply put_task_done; [exact Hf | reflexivity].
    + rewrite returned_tags. unfold shown_tags. cbn [is_sqlite andb]. exact Hp.
Qed.

Lemma null_tags_on_update_witness :
  (exists t : jsobj,
      put_task Sqlite 30 "1" null_tags busy_store
        = (Respond 200 (success_data (JObj t)),
           updated_store Sqlite 30 "1" null_tags busy_store) /\
      t_tags (rewritten Sqlite 30 null_tags task_one) = JStr "null" /\
      obj_get "tags" t = JNull) /\
  (exists t : jsobj,
      put_task Postgres 30 "1" null_tags busy_store
        = (Respond 200 (success_data (JObj t)),
           updated_store Postgres 30 "1" null_tags busy_store) /\
      t_tags (rewritten Postgres 30 null_tags task_one) = t_tags task_one /\
      obj_get "tags" t = t_tags task_one).
Proof.
  apply (null_tags_on_update 30 "1" null_tags busy_store task_one); reflexivity.
Defined.
